(** * blogicum/blog/views.py: the view layer of the blog, embedded in Rocq

    The views are pure functions of the database state, the clock and the
    request.  Tables are lists of rows, a queryset is the list of rows it
    selects, [timezone.now()] is an explicit argument, exceptions are a
    [result] type, and the writes a view performs ([save()], [delete()]) are
    returned as a list of commands next to the response. *)

From Stdlib Require Import Ascii String ZArith List Bool Lia Permutation Sorted.
Import ListNotations.
Local Open Scope string_scope.
Local Open Scope Z_scope.

Set Implicit Arguments.

(** ** The models, as views.py uses them

    Each record has the attributes of a model that views.py reads or writes.
    A related object reached through a foreign key ([post.author],
    [post.category]) is a field holding the related row, as [select_related]
    delivers it. *)

Module User.
(** Modelled from the spec: the user model ([get_user_model()]) is declared
    outside views.py; a user is known by its key and its [username]. *)
Record t := mk { pk : Z; username : string }.
(** [Model.__eq__]: two saved rows of one model are equal when their
      primary keys are. *)
Definition eqb (u v : t) : bool := pk u =? pk v.
End User.

Module Category.
(** Modelled from the spec: blog/models.py, which declares [Category], is
    missing; a category is a "grouping of posts, itself togglable
    published/unpublished", looked up by its [slug]. *)
Record t := mk { pk : Z; slug : string; is_published : bool }.
Definition eqb (c d : t) : bool := pk c =? pk d.
End Category.

Module Post.
(** Modelled from the spec: blog/models.py, which declares [Post], is
    missing; a post is "a blog entry with publication state, date, author,
    category, location". *)
Record t := mk {
    pk : Z;
    is_published : bool;
    pub_date : Z;            (* a point in time, as a timestamp *)
    author : User.t;
    category : Category.t;
    location : Z             (* key of the related location *)
  }.
End Post.

Module Comment.
(** Modelled from the spec: blog/models.py, which declares [Comment], is
    missing; a comment is "a reply to a post, owned by its author". *)
Record t := mk {
    pk : Z;
    author : User.t;
    post_id : Z;             (* [comment.post], by the key of the post *)
    text : string
  }.
End Comment.

(** The stored state: one list of rows per table. *)
Record DB := mkDB {
  users : list User.t;
  categories : list Category.t;
  posts : list Post.t;
  comments : list Comment.t
}.

(** [request.user] is a saved user or [AnonymousUser]. *)
Inductive RequestUser :=
| AnonymousUser
| LoggedIn (u : User.t).

Definition is_authenticated (ru : RequestUser) : bool :=
  match ru with AnonymousUser => false | LoggedIn _ => true end.

(** [request.user == obj] for a saved user [obj]: [AnonymousUser] equals
    only another [AnonymousUser]. *)
Definition user_eq (ru : RequestUser) (obj : User.t) : bool :=
  match ru with
  | AnonymousUser => false
  | LoggedIn u => User.eqb u obj
  end.

(** ** Exceptions *)

(** A view raises [Http404] or [PermissionDenied]; anything else that goes
    uncaught is an internal error. *)
Inductive Exception :=
| Http404
| PermissionDenied
| InternalError.

Inductive result (E A : Type) :=
| Ok (a : A)
| Raise (e : E).
Arguments Ok {E A} a.
Arguments Raise {E A} e.

Definition bind {E A B} (r : result E A) (k : A -> result E B) : result E B :=
  match r with
  | Ok a => k a
  | Raise e => Raise e
  end.

Notation "x <- r ;; k" := (bind r (fun x => k))
  (at level 61, r at next level, right associativity).

(** ** Querysets *)

(** A post as a template receives it: the row, and the [comment_count]
    attribute when the queryset it came from was annotated with it. *)
Record PostObj := mkPostObj {
  row : Post.t;
  comment_count : option nat
}.

Definition Post_objects_all (db : DB) : list Post.t := posts db.

(** [post.comments]: the comments whose [post] is this post. *)
Definition Post_comments (db : DB) (p : Post.t) : list Comment.t :=
  filter (fun c => Comment.post_id c =? Post.pk p) (comments db).

(** [.annotate(comment_count=Count('comments'))] *)
Definition annotate_comment_count (db : DB) (qs : list Post.t) : list PostObj :=
  map (fun p => mkPostObj p (Some (length (Post_comments db p)))) qs.

(** [select_related] changes how rows are fetched, not which. *)
Definition select_related (qs : list Post.t) : list Post.t := qs.

(** [order_by]: a stable insertion sort by the comparison [leb]. *)
Section OrderBy.
Variable A : Type.
Variable leb : A -> A -> bool.

Fixpoint insert_sorted (x : A) (l : list A) : list A :=
    match l with
    | [] => [x]
    | y :: l' => if leb x y then x :: l else y :: insert_sorted x l'
    end.

Fixpoint order_by (l : list A) : list A :=
    match l with
    | [] => []
    | x :: l' => insert_sorted x (order_by l')
    end.
End OrderBy.

(** ** Requests and responses *)

Module Method.
Inductive t := GET | POST.
End Method.

(** [request.GET], [request.POST]: keys with values, in order of appearance. *)
Definition QueryDict := list (string * string).

(** [QueryDict.get(key)]: the last value given for the key, [None] without one. *)
Fixpoint QueryDict_get (key : string) (qd : QueryDict) : option string :=
  match qd with
  | [] => None
  | (k, v) :: rest =>
      match QueryDict_get key rest with
      | Some v' => Some v'
      | None => if String.eqb k key then Some v else None
      end
  end.

Record HttpRequest := mkRequest {
  method : Method.t;
  user : RequestUser;
  GET : QueryDict;
  POST : QueryDict
}.

(** The named routes the views reverse. *)
Inductive URL :=
| blog_index
| blog_post_detail (post_id : Z)
| blog_profile (username : string)
| login.

(** A value passed where Python converts with [int(...)]. *)
Inductive PyValue :=
| PyNone
| PyStr (s : string)
| PyInt (n : Z).

(** ** django.core.paginator *)

Inductive InvalidPage :=
| PageNotAnInteger
| EmptyPage.

Record Paginator := mkPaginator {
  object_list : list PostObj;
  per_page : Z;
  orphans : Z;
  allow_empty_first_page : bool
}.

Record Page := mkPage {
  page_object_list : list PostObj;
  number : Z;
  paginator : Paginator
}.

(** [l[bottom:top]] for bounds that are not negative. *)
Definition slice (A : Type) (l : list A) (bottom top : Z) : list A :=
  firstn (Z.to_nat (top - bottom)) (skipn (Z.to_nat bottom) l).

Definition count (pg : Paginator) : Z := Z.of_nat (length (object_list pg)).

(** [ceil(hits / per_page)] *)
Definition num_pages (pg : Paginator) : Z :=
  if (count pg =? 0) && negb (allow_empty_first_page pg) then 0
  else
    let hits := Z.max 1 (count pg - orphans pg) in
    (hits + per_page pg - 1) / per_page pg.

(** Template contexts, one shape per template. *)
Inductive Context :=
| ListContext (page_obj : Page)
| DetailContext (object : PostObj) (comments : list Comment.t)
| CategoryContext (page_obj : Page) (category : Category.t)
| ProfileContext (profile : User.t) (page_obj : Page)
| PostFormContext (object : option Post.t) (form_data : option QueryDict)
                  (title : option string)
| PostDeleteContext (object : Post.t)
| CommentFormContext (object : Comment.t) (form_data : option QueryDict)
| CommentDeleteContext (object : Comment.t).

Inductive HttpResponse :=
| TemplateResponse (template : string) (context : Context)
| HttpResponseRedirect (url : URL)
| HttpResponseNotFound
| HttpResponseForbidden
| HttpResponseNotAllowed
| HttpResponseServerError.

Definition render (template : string) (context : Context) : HttpResponse :=
  TemplateResponse template context.

Definition redirect (to : URL) : HttpResponse := HttpResponseRedirect to.

(** What the request handler makes of an exception a view lets through. *)
Definition response_for_exception (e : Exception) : HttpResponse :=
  match e with
  | Http404 => HttpResponseNotFound
  | PermissionDenied => HttpResponseForbidden
  | InternalError => HttpResponseServerError
  end.

(** ** Writes to the database *)

Inductive Write :=
| InsertPost (is_published : bool) (pub_date : Z) (author : User.t)
             (category : Category.t) (location : Z)
| SavePost (p : Post.t)
| DeletePost (p : Post.t)
| InsertComment (author : User.t) (post_id : Z) (text : string)
| SaveComment (c : Comment.t)
| DeleteComment (c : Comment.t).

(** A key no row of the table has. *)
Definition next_pk (pks : list Z) : Z := 1 + fold_right Z.max 0 pks.

(** [instance.save()] of a row that has a key: the row with that key is
    replaced, and the instance is inserted when there is none. *)
Definition save_row (A : Type) (pk : A -> Z) (x : A) (table : list A) : list A :=
  if existsb (fun y => pk y =? pk x) table
  then map (fun y => if pk y =? pk x then x else y) table
  else table ++ [x].

Definition delete_row (A : Type) (pk : A -> Z) (x : A) (table : list A) : list A :=
  filter (fun y => negb (pk y =? pk x)) table.

(** Modelled from the spec: blog/models.py, which says what becomes of the
    comments of a deleted post, is missing; a comment is "a reply to a
    post", and here it goes with its post. *)
Definition apply_write (db : DB) (w : Write) : DB :=
  match w with
  | InsertPost ip pd a c l =>
      mkDB (users db) (categories db)
           (posts db ++ [Post.mk (next_pk (map Post.pk (posts db))) ip pd a c l])
           (comments db)
  | SavePost p =>
      mkDB (users db) (categories db) (save_row Post.pk p (posts db)) (comments db)
  | DeletePost p =>
      mkDB (users db) (categories db) (delete_row Post.pk p (posts db))
           (filter (fun c => negb (Comment.post_id c =? Post.pk p)) (comments db))
  | InsertComment a pid t =>
      mkDB (users db) (categories db) (posts db)
           (comments db ++ [Comment.mk (next_pk (map Comment.pk (comments db))) a pid t])
  | SaveComment c =>
      mkDB (users db) (categories db) (posts db) (save_row Comment.pk c (comments db))
  | DeleteComment c =>
      mkDB (users db) (categories db) (posts db) (delete_row Comment.pk c (comments db))
  end.

Definition commit (db : DB) (writes : list Write) : DB :=
  fold_left apply_write writes db.

(** What a view that may write hands back. *)
Definition Outcome : Type := HttpResponse * list Write.

(** ** Fetching one object *)

(** [queryset.filter(pk=pk).get()], with [DoesNotExist] turned into [Http404]:
    [SingleObjectMixin.get_object] and [get_object_or_404] by key. *)
Definition get_by_pk (A : Type) (pk_of : A -> Z) (queryset : list A) (pk : Z)
    : result Exception A :=
  match find (fun o => pk_of o =? pk) queryset with
  | Some o => Ok o
  | None => Raise Http404
  end.

(** Models whose rows have an [author]. *)
Class Authored (A : Type) := author_of : A -> User.t.
#[export] Instance Post_Authored : Authored Post.t := Post.author.
#[export] Instance Comment_Authored : Authored Comment.t := Comment.author.

(** ** The views *)

Section Views.

(** [Post._meta.ordering], declared in blog/models.py: [true] when the
    first post does not come after the second. *)
Variable Post_meta_ordering : Post.t -> Post.t -> bool.

(** Python's [int(s)] on a string; [None] where it raises [ValueError]. *)
Variable python_int : string -> option Z.

(** The forms of blog/forms.py, by what a bound form yields.
    [PostForm_clean data]: the fields of a valid [PostForm(data)] as its
    fresh instance holds them ([pub_date] may be left out); [None] when the
    form is invalid.  [PostForm_update data post]: the instance of a valid
    [PostForm(data, instance=post)]; [CommentForm_clean] and
    [CommentForm_update] likewise for [CommentForm].  *)
Record PostDraft := mkPostDraft {
  draft_is_published : bool;
  draft_pub_date : option Z;
  draft_category : Category.t;
  draft_location : Z
}.
Variable PostForm_clean : QueryDict -> option PostDraft.
Variable PostForm_update : QueryDict -> Post.t -> option Post.t.
Variable CommentForm_clean : QueryDict -> option string.
Variable CommentForm_update : QueryDict -> Comment.t -> option Comment.t.

(** *** The query builder *)

Definition get_annotated_posts (db : DB) (now : Z)
    (queryset : option (list Post.t)) (published_only : bool) : list PostObj :=
  let queryset :=
    match queryset with
    | None => Post_objects_all db
    | Some qs => qs
    end in
  let queryset := annotate_comment_count db (select_related queryset) in
  let queryset :=
    if published_only then
      filter (fun o =>
                Post.is_published (row o)
                && Category.is_published (Post.category (row o))
                && (Post.pub_date (row o) <=? now))
             queryset
    else queryset in
  order_by (fun a b => Post_meta_ordering (row a) (row b)) queryset.

(** *** Paginator methods *)

Definition python_int_of (v : PyValue) : option Z :=
  match v with
  | PyNone => None
  | PyStr s => python_int s
  | PyInt n => Some n
  end.

Definition validate_number (pg : Paginator) (number : PyValue)
    : result InvalidPage Z :=
  match python_int_of number with
  | None => Raise PageNotAnInteger
  | Some number =>
      if number <? 1 then Raise EmptyPage
      else if number >? num_pages pg then Raise EmptyPage
      else Ok number
  end.

Definition Paginator_page (pg : Paginator) (number : PyValue)
    : result InvalidPage Page :=
  number <- validate_number pg number ;;
  let bottom := (number - 1) * per_page pg in
  let top := bottom + per_page pg in
  let top := if top + orphans pg >=? count pg then count pg else top in
  Ok (mkPage (slice (object_list pg) bottom top) number pg).

Definition get_page (pg : Paginator) (number : PyValue)
    : result InvalidPage Page :=
  let number :=
    match validate_number pg number with
    | Ok number => number
    | Raise PageNotAnInteger => 1
    | Raise EmptyPage => num_pages pg
    end in
  Paginator_page pg (PyInt number).

(** [Paginator(posts, 10)] *)
Definition Paginator_10 (posts : list PostObj) : Paginator :=
  mkPaginator posts 10 0 true.

(** [request.GET.get('page')] *)
Definition page_number_of (request : HttpRequest) : PyValue :=
  match QueryDict_get "page" (GET request) with
  | Some s => PyStr s
  | None => PyNone
  end.

(** *** PostsListView *)

Definition PostsListView_paginate_by : Z := 10.

Definition PostsListView_get_queryset (db : DB) (now : Z) : list PostObj :=
  get_annotated_posts db now None true.

(** [MultipleObjectMixin.paginate_queryset]: the page asked for, [Http404]
    for a page that is not a number (other than [last]) or does not exist.
    The route of the list has no [page] argument of its own. *)
Definition paginate_queryset (request : HttpRequest) (queryset : list PostObj)
    (page_size : Z) : result Exception Page :=
  let paginator := mkPaginator queryset page_size 0 true in
  let page :=
    match QueryDict_get "page" (GET request) with
    | None => PyInt 1
    | Some s => if String.eqb s "" then PyInt 1 else PyStr s
    end in
  page_number <-
    match page with
    | PyInt n => Ok n
    | PyStr s =>
        match python_int s with
        | Some n => Ok n
        | None =>
            if String.eqb s "last" then Ok (num_pages paginator)
            else Raise Http404
        end
    | PyNone => Raise InternalError
    end ;;
  match Paginator_page paginator (PyInt page_number) with
  | Ok page => Ok page
  | Raise _ => Raise Http404
  end.

Definition PostsListView (db : DB) (now : Z) (request : HttpRequest)
    : result Exception HttpResponse :=
  match method request with
  | Method.GET =>
      let object_list := PostsListView_get_queryset db now in
      page <- paginate_queryset request object_list PostsListView_paginate_by ;;
      Ok (render "blog/index.html" (ListContext page))
  | Method.POST => Ok HttpResponseNotAllowed
  end.

(** *** PostDetailView *)

Definition PostDetailView_get_object (db : DB) (now : Z)
    (request : HttpRequest) (post_id : Z) : result Exception Post.t :=
  post <- get_by_pk Post.pk (Post_objects_all db) post_id ;;
  if is_authenticated (user request) && user_eq (user request) (Post.author post)
  then Ok post
  else if Post.is_published post
          && Category.is_published (Post.category post)
          && (Post.pub_date post <=? now)
  then Ok post
  else Raise Http404.

Definition PostDetailView_get_context_data (db : DB) (object : Post.t) : Context :=
  DetailContext (mkPostObj object None) (Post_comments db object).

Definition PostDetailView (db : DB) (now : Z) (request : HttpRequest)
    (post_id : Z) : result Exception HttpResponse :=
  match method request with
  | Method.GET =>
      object <- PostDetailView_get_object db now request post_id ;;
      Ok (render "blog/detail.html" (PostDetailView_get_context_data db object))
  | Method.POST => Ok HttpResponseNotAllowed
  end.

(** *** category_posts *)

(** [get_object_or_404(Category, slug=category_slug, is_published=True)];
    a slug names at most one category. *)
Definition get_category_or_404 (db : DB) (category_slug : string)
    : result Exception Category.t :=
  match find (fun c => String.eqb (Category.slug c) category_slug
                       && Category.is_published c)
             (categories db) with
  | Some c => Ok c
  | None => Raise Http404
  end.

(** [category.posts.all()] *)
Definition Category_posts (db : DB) (category : Category.t) : list Post.t :=
  filter (fun p => Category.eqb (Post.category p) category) (posts db).

(** A page object that [get_page] fails to deliver goes uncaught. *)
Definition page_or_error (r : result InvalidPage Page) : result Exception Page :=
  match r with
  | Ok page => Ok page
  | Raise _ => Raise InternalError
  end.

Definition category_posts (db : DB) (now : Z) (request : HttpRequest)
    (category_slug : string) : result Exception HttpResponse :=
  let template := "blog/category.html" in
  category <- get_category_or_404 db category_slug ;;
  let posts :=
    get_annotated_posts db now (Some (Category_posts db category)) true in
  let paginator := Paginator_10 posts in
  let page_number := page_number_of request in
  page_obj <- page_or_error (get_page paginator page_number) ;;
  Ok (render template (CategoryContext page_obj category)).

(** *** ProfileView *)

(** [Post.objects.filter(author=user)] *)
Definition Post_objects_filter_author (db : DB) (author : User.t) : list Post.t :=
  filter (fun p => User.eqb (Post.author p) author) (posts db).

(** [get_object] by [username]. *)
Definition ProfileView_get_object (db : DB) (username : string)
    : result Exception User.t :=
  match find (fun u => String.eqb (User.username u) username) (users db) with
  | Some u => Ok u
  | None => Raise Http404
  end.

Definition ProfileView_get_context_data (db : DB) (now : Z)
    (request : HttpRequest) (object : User.t) : result Exception Context :=
  let current_user := user request in
  let posts :=
    if is_authenticated current_user && user_eq current_user object
    then get_annotated_posts db now
           (Some (Post_objects_filter_author db object)) false
    else get_annotated_posts db now
           (Some (Post_objects_filter_author db object)) true in
  let paginator := Paginator_10 posts in
  let page_number := page_number_of request in
  page_obj <- page_or_error (get_page paginator page_number) ;;
  Ok (ProfileContext object page_obj).

Definition ProfileView (db : DB) (now : Z) (request : HttpRequest)
    (username : string) : result Exception HttpResponse :=
  match method request with
  | Method.GET =>
      object <- ProfileView_get_object db username ;;
      context <- ProfileView_get_context_data db now request object ;;
      Ok (render "blog/profile.html" context)
  | Method.POST => Ok HttpResponseNotAllowed
  end.

(** *** Access mixins and decorators (django.contrib.auth) *)

(** [AccessMixin.handle_no_permission]: a logged-in user is refused, an
    anonymous one is sent to the login page. *)
Definition AccessMixin_handle_no_permission (request : HttpRequest)
    : result Exception Outcome :=
  if is_authenticated (user request) then Raise PermissionDenied
  else Ok (redirect login, []).

Definition LoginRequiredMixin_dispatch (request : HttpRequest)
    (handle_no_permission super_dispatch : result Exception Outcome)
    : result Exception Outcome :=
  if negb (is_authenticated (user request)) then handle_no_permission
  else super_dispatch.

Definition UserPassesTestMixin_dispatch (test_func : result Exception bool)
    (handle_no_permission super_dispatch : result Exception Outcome)
    : result Exception Outcome :=
  user_test_result <- test_func ;;
  if negb user_test_result then handle_no_permission else super_dispatch.

(** [@login_required] *)
Definition login_required (request : HttpRequest)
    (view : result Exception Outcome) : result Exception Outcome :=
  if is_authenticated (user request) then view
  else Ok (redirect login, []).

(** *** PostCreateView *)

Definition PostCreateView_get_success_url (u : User.t) : URL :=
  blog_profile (User.username u).

Definition PostCreateView_form_valid (now : Z) (u : User.t) (form : PostDraft)
    : Outcome :=
  let author := u in
  let pub_date :=
    match draft_pub_date form with
    | None => now
    | Some d => d
    end in
  (redirect (PostCreateView_get_success_url u),
   [InsertPost (draft_is_published form) pub_date author
               (draft_category form) (draft_location form)]).

Definition PostCreateView_handler (now : Z) (request : HttpRequest)
    : result Exception Outcome :=
  let title := Some "Создание новой публикации" in
  match method request with
  | Method.GET => Ok (render "blog/create.html" (PostFormContext None None title), [])
  | Method.POST =>
      match PostForm_clean (POST request) with
      | Some form =>
          match user request with
          | LoggedIn u => Ok (PostCreateView_form_valid now u form)
          | AnonymousUser => Raise InternalError
          end
      | None =>
          Ok (render "blog/create.html"
                (PostFormContext None (Some (POST request)) title), [])
      end
  end.

Definition PostCreateView (now : Z) (request : HttpRequest)
    : result Exception Outcome :=
  LoginRequiredMixin_dispatch request
    (AccessMixin_handle_no_permission request)
    (PostCreateView_handler now request).

(** *** EditMixin *)

Section EditMixin.
Context {A : Type} `{Authored A}.
Variable request : HttpRequest.
(** [self.kwargs.get('post_id')], which the routes of these views supply. *)
Variable post_id : Z.
Variable get_object : result Exception A.

Definition EditMixin_test_func : result Exception bool :=
  post <- get_object ;;
  Ok (user_eq (user request) (author_of post)).

Definition EditMixin_handle_no_permission : result Exception Outcome :=
  Ok (redirect (blog_post_detail post_id), []).

Definition EditMixin_dispatch (super_dispatch : result Exception Outcome)
    : result Exception Outcome :=
  LoginRequiredMixin_dispatch request EditMixin_handle_no_permission
    (UserPassesTestMixin_dispatch EditMixin_test_func
       EditMixin_handle_no_permission super_dispatch).
End EditMixin.

(** *** PostUpdateView *)

Definition Post_get_object (db : DB) (post_id : Z) : result Exception Post.t :=
  get_by_pk Post.pk (Post_objects_all db) post_id.

Definition PostUpdateView_handler (db : DB) (request : HttpRequest)
    (post_id : Z) : result Exception Outcome :=
  object <- Post_get_object db post_id ;;
  match method request with
  | Method.GET =>
      Ok (render "blog/create.html" (PostFormContext (Some object) None None), [])
  | Method.POST =>
      match PostForm_update (POST request) object with
      | Some object' => Ok (redirect blog_index, [SavePost object'])
      | None =>
          Ok (render "blog/create.html"
                (PostFormContext (Some object) (Some (POST request)) None), [])
      end
  end.

Definition PostUpdateView_dispatch (db : DB) (request : HttpRequest)
    (post_id : Z) (super_dispatch : result Exception Outcome)
    : result Exception Outcome :=
  EditMixin_dispatch request post_id (Post_get_object db post_id) super_dispatch.

Definition PostUpdateView (db : DB) (request : HttpRequest) (post_id : Z)
    : result Exception Outcome :=
  PostUpdateView_dispatch db request post_id
    (PostUpdateView_handler db request post_id).

(** *** PostDeleteView *)

Definition PostDeleteView_handler (db : DB) (request : HttpRequest)
    (post_id : Z) : result Exception Outcome :=
  object <- Post_get_object db post_id ;;
  match method request with
  | Method.GET => Ok (render "blog/create.html" (PostDeleteContext object), [])
  | Method.POST => Ok (redirect blog_index, [DeletePost object])
  end.

Definition PostDeleteView_dispatch (db : DB) (request : HttpRequest)
    (post_id : Z) (super_dispatch : result Exception Outcome)
    : result Exception Outcome :=
  EditMixin_dispatch request post_id (Post_get_object db post_id) super_dispatch.

Definition PostDeleteView (db : DB) (request : HttpRequest) (post_id : Z)
    : result Exception Outcome :=
  PostDeleteView_dispatch db request post_id
    (PostDeleteView_handler db request post_id).

(** *** add_comment *)

(** [request.POST or None]: an empty [QueryDict] is false. *)
Definition POST_or_None (request : HttpRequest) : option QueryDict :=
  match POST request with
  | [] => None
  | data => Some data
  end.

(** [CommentForm(data)]: a form without data is unbound, and not valid. *)
Definition CommentForm (data : option QueryDict) : option string :=
  match data with
  | None => None
  | Some data => CommentForm_clean data
  end.

Definition add_comment (db : DB) (request : HttpRequest) (post_id : Z)
    : result Exception Outcome :=
  login_required request (
    post <- get_by_pk Post.pk (Post_objects_all db) post_id ;;
    let form := CommentForm (POST_or_None request) in
    writes <-
      match form with
      | Some text =>
          match user request with
          | LoggedIn u => Ok [InsertComment u (Post.pk post) text]
          | AnonymousUser => Raise InternalError
          end
      | None => Ok []
      end ;;
    Ok (redirect (blog_post_detail post_id), writes)).

(** *** CommentUpdateView *)

Definition Comment_get_object (db : DB) (comment_id : Z)
    : result Exception Comment.t :=
  get_by_pk Comment.pk (comments db) comment_id.

Definition CommentUpdateView_get_success_url (object : Comment.t) : URL :=
  blog_post_detail (Comment.post_id object).

Definition CommentUpdateView_handler (db : DB) (request : HttpRequest)
    (comment_id : Z) : result Exception Outcome :=
  object <- Comment_get_object db comment_id ;;
  match method request with
  | Method.GET =>
      Ok (render "blog/comment.html" (CommentFormContext object None), [])
  | Method.POST =>
      match CommentForm_update (POST request) object with
      | Some object' =>
          Ok (redirect (CommentUpdateView_get_success_url object'),
              [SaveComment object'])
      | None =>
          Ok (render "blog/comment.html"
                (CommentFormContext object (Some (POST request))), [])
      end
  end.

Definition CommentUpdateView_dispatch (db : DB) (request : HttpRequest)
    (comment_id : Z) (super_dispatch : result Exception Outcome)
    : result Exception Outcome :=
  comment <- Comment_get_object db comment_id ;;
  if negb (user_eq (user request) (Comment.author comment))
  then Raise PermissionDenied
  else LoginRequiredMixin_dispatch request
         (AccessMixin_handle_no_permission request) super_dispatch.

Definition CommentUpdateView (db : DB) (request : HttpRequest) (comment_id : Z)
    : result Exception Outcome :=
  CommentUpdateView_dispatch db request comment_id
    (CommentUpdateView_handler db request comment_id).

(** *** CommentDeleteView *)

Definition CommentDeleteView_get_success_url (object : Comment.t) : URL :=
  let post_id := Comment.post_id object in
  blog_post_detail post_id.

Definition CommentDeleteView_handler (db : DB) (request : HttpRequest)
    (comment_id : Z) : result Exception Outcome :=
  object <- Comment_get_object db comment_id ;;
  match method request with
  | Method.GET =>
      Ok (render "blog/comment.html" (CommentDeleteContext object), [])
  | Method.POST =>
      Ok (redirect (CommentDeleteView_get_success_url object),
          [DeleteComment object])
  end.

Definition CommentDeleteView_dispatch (db : DB) (request : HttpRequest)
    (post_id comment_id : Z) (super_dispatch : result Exception Outcome)
    : result Exception Outcome :=
  EditMixin_dispatch request post_id (Comment_get_object db comment_id)
    super_dispatch.

Definition CommentDeleteView (db : DB) (request : HttpRequest)
    (post_id comment_id : Z) : result Exception Outcome :=
  CommentDeleteView_dispatch db request post_id comment_id
    (CommentDeleteView_handler db request comment_id).

(** *** The routes of the views that write *)

(** The arguments a route captures from the path. *)
Record Kwargs := mkKwargs { kw_post_id : Z; kw_comment_id : Z }.

Inductive MutationView :=
| PostCreate
| PostUpdate
| PostDelete
| AddComment
| CommentUpdate
| CommentDelete.

Definition run (v : MutationView) (db : DB) (now : Z) (request : HttpRequest)
    (kwargs : Kwargs) : result Exception Outcome :=
  match v with
  | PostCreate => PostCreateView now request
  | PostUpdate => PostUpdateView db request (kw_post_id kwargs)
  | PostDelete => PostDeleteView db request (kw_post_id kwargs)
  | AddComment => add_comment db request (kw_post_id kwargs)
  | CommentUpdate => CommentUpdateView db request (kw_comment_id kwargs)
  | CommentDelete =>
      CommentDeleteView db request (kw_post_id kwargs) (kw_comment_id kwargs)
  end.

End Views.

(** What reaches the client and the database when the request handler has
    turned an exception into its response. *)
Definition response_of (r : result Exception Outcome) : HttpResponse :=
  match r with
  | Ok (response, _) => response
  | Raise e => response_for_exception e
  end.

Definition writes_of (r : result Exception Outcome) : list Write :=
  match r with
  | Ok (_, writes) => writes
  | Raise _ => []
  end.

(** ** The rule of publication, in the words of the specification *)

(** A post is public when its flag is set, the flag of its category is set
    and its date of publication has come. *)
Definition is_publicb (now : Z) (p : Post.t) : bool :=
  Post.is_published p
  && Category.is_published (Post.category p)
  && (Post.pub_date p <=? now).

(** The flag of the post and its date alone. *)
Definition flag_and_dateb (now : Z) (p : Post.t) : bool :=
  Post.is_published p && (Post.pub_date p <=? now).

(** The posts a queryset argument of the query builder stands for. *)
Definition input_posts (db : DB) (queryset : option (list Post.t)) : list Post.t :=
  match queryset with
  | None => posts db
  | Some qs => qs
  end.

(** The number of comments attached to a post. *)
Definition comments_on (db : DB) (p : Post.t) : nat :=
  length (filter (fun c => Comment.post_id c =? Post.pk p) (comments db)).

(** ** Sample data *)

Definition alice : User.t := User.mk 1 "alice".
Definition bob : User.t := User.mk 2 "bob".

Definition travel : Category.t := Category.mk 1 "travel" true.
Definition drafts : Category.t := Category.mk 2 "drafts" false.

Definition post_public : Post.t := Post.mk 1 true 5 alice travel 0.
Definition post_hidden_category : Post.t := Post.mk 2 true 5 alice drafts 0.
Definition post_unpublished : Post.t := Post.mk 3 false 7 alice travel 0.
Definition post_future : Post.t := Post.mk 4 true 100 alice travel 0.
Definition post_of_bob : Post.t := Post.mk 5 true 8 bob travel 0.

Definition comment_1 : Comment.t := Comment.mk 1 bob 1 "first".
Definition comment_2 : Comment.t := Comment.mk 2 alice 1 "second".
Definition comment_3 : Comment.t := Comment.mk 3 bob 5 "third".

Definition sample_db : DB :=
  mkDB [alice; bob] [travel; drafts]
       [post_public; post_hidden_category; post_unpublished; post_future;
        post_of_bob]
       [comment_1; comment_2; comment_3].

(** Newest first. *)
Definition newest_first (a b : Post.t) : bool :=
  Post.pub_date b <=? Post.pub_date a.

Definition anonymous_get : HttpRequest := mkRequest Method.GET AnonymousUser [] [].

(** A post with eleven replies. *)
Definition eleven_comments : list Comment.t :=
  map (fun i => Comment.mk (Z.of_nat i) bob 1 "reply") (seq 1 11).

Definition busy_db : DB := mkDB [alice; bob] [travel] [post_public] eleven_comments.

(** Stand-ins for the forms: a comment needs a text that is not empty, a
    post its [is_published] box. *)
Definition sample_CommentForm_clean (data : QueryDict) : option string :=
  match QueryDict_get "text" data with
  | Some t => if String.eqb t "" then None else Some t
  | None => None
  end.

Definition sample_CommentForm_update (data : QueryDict) (c : Comment.t)
    : option Comment.t :=
  match sample_CommentForm_clean data with
  | Some t => Some (Comment.mk (Comment.pk c) (Comment.author c) (Comment.post_id c) t)
  | None => None
  end.

Definition sample_PostForm_clean (data : QueryDict) : option PostDraft :=
  match QueryDict_get "is_published" data with
  | Some v => Some (mkPostDraft (String.eqb v "on") None travel 0)
  | None => None
  end.

Definition sample_PostForm_update (data : QueryDict) (p : Post.t) : option Post.t :=
  match QueryDict_get "is_published" data with
  | Some v =>
      Some (Post.mk (Post.pk p) (String.eqb v "on") (Post.pub_date p)
                    (Post.author p) (Post.category p) (Post.location p))
  | None => None
  end.

(** A request that posts form data as a logged-in user. *)
Definition post_as (u : User.t) (data : QueryDict) : HttpRequest :=
  mkRequest Method.POST (LoggedIn u) [] data.

(** The views that update or delete, and the author of the row such a view
    is asked to change. *)
Definition edit_views : list MutationView :=
  [PostUpdate; PostDelete; CommentUpdate; CommentDelete].

Definition resource_author (v : MutationView) (db : DB) (kwargs : Kwargs)
    : option User.t :=
  match v with
  | PostUpdate | PostDelete =>
      match Post_get_object db (kw_post_id kwargs) with
      | Ok post => Some (Post.author post)
      | Raise _ => None
      end
  | CommentUpdate | CommentDelete =>
      match Comment_get_object db (kw_comment_id kwargs) with
      | Ok comment => Some (Comment.author comment)
      | Raise _ => None
      end
  | PostCreate | AddComment => None
  end.

(** How a view turns away a viewer who is not the author. *)
Definition refusal (v : MutationView) (kwargs : Kwargs) : HttpResponse :=
  match v with
  | CommentUpdate => HttpResponseForbidden
  | _ => HttpResponseRedirect (blog_post_detail (kw_post_id kwargs))
  end.

(** The page number [get_page] settles on for a list of [n] objects, ten to
    a page: the number asked for when it names a page, the first page when
    it is not a number, the last page when it is out of range. *)
Definition last_page (n : nat) : Z := (Z.max 1 (Z.of_nat n) + 9) / 10.

Definition settled_number (asked : option Z) (n : nat) : Z :=
  match asked with
  | None => 1
  | Some k => if k <? 1 then last_page n else if k >? last_page n then last_page n else k
  end.

(** The [k]-th page of ten of a list, pages counted from one. *)
Definition tenth (A : Type) (k : Z) (l : list A) : list A :=
  firstn 10 (skipn (Z.to_nat (10 * (k - 1))) l).

(** The page a context carries, if it carries one. *)
Definition context_page (c : Context) : option Page :=
  match c with
  | ListContext page_obj => Some page_obj
  | CategoryContext page_obj _ => Some page_obj
  | ProfileContext _ page_obj => Some page_obj
  | _ => None
  end.

(** The page of a rendered response. *)
Definition response_page (r : result Exception HttpResponse) : option Page :=
  match r with
  | Ok (TemplateResponse _ c) => context_page c
  | _ => None
  end.

(** The public posts of a user, as the table holds them. *)
Definition owner_published (db : DB) (now : Z) (owner : User.t) : list Post.t :=
  filter (fun p => User.eqb (Post.author p) owner && is_publicb now p) (posts db).

(** The rows of the posts on the page of a context. *)
Definition shown_rows (c : result Exception Context) : list Post.t :=
  match c with
  | Ok c =>
      match context_page c with
      | Some page => map row (page_object_list page)
      | None => []
      end
  | Raise _ => []
  end.

(** Another state with the same public posts of alice, and the same
    comments on them: it differs in what alice has not published and in
    what others wrote. *)
Definition other_db : DB :=
  mkDB [alice] [travel; drafts]
       [Post.mk 9 false 1 alice travel 3; post_public;
        Post.mk 5 false 8 bob travel 0; Post.mk 11 true 200 alice travel 0]
       [comment_2; Comment.mk 7 alice 9 "note"; comment_1].

(** A stand-in for [int] on strings: decimal digits only. *)
Definition digit_of (c : ascii) : option Z :=
  let n := Z.of_nat (nat_of_ascii c) in
  if (48 <=? n) && (n <=? 57) then Some (n - 48) else None.

Fixpoint decimal_digits (acc : Z) (s : string) : option Z :=
  match s with
  | EmptyString => Some acc
  | String c s' =>
      match digit_of c with
      | Some d => decimal_digits (10 * acc + d) s'
      | None => None
      end
  end.

Definition decimal_int (s : string) : option Z :=
  match s with
  | EmptyString => None
  | _ => decimal_digits 0 s
  end.

(** ** ProfileUpdateView *)

(** What [ProfileUpdateView] answers with: a plain response, or its template
    [blog/user.html] rendered with the user being edited and, when a
    submitted form is shown again, the data submitted. *)
Inductive ProfileUpdateResponse :=
| PlainResponse (response : HttpResponse)
| UserFormResponse (template : string) (object : User.t)
                   (form_data : option QueryDict).

(** The response, and the users the view saves. *)
Definition ProfileUpdateOutcome : Type := ProfileUpdateResponse * list User.t.

Section ProfileUpdate.

(** [UserUpdateForm] of blog/forms.py: [UserUpdateForm_update data user] is
    the instance of a valid [UserUpdateForm(data, instance=user)], [None]
    when the form is invalid. *)
Variable UserUpdateForm_update : QueryDict -> User.t -> option User.t.

(** [get_object]: the current user, whatever the path says. *)
Definition ProfileUpdateView_get_object (request : HttpRequest) : RequestUser :=
  user request.

(** The form writes into its instance, which is [request.user] itself, so
    the user whose [username] the address is built from is the saved one. *)
Definition ProfileUpdateView_get_success_url (request_user : User.t) : URL :=
  blog_profile (User.username request_user).

Definition ProfileUpdateView_handler (request : HttpRequest)
    : result Exception ProfileUpdateOutcome :=
  match ProfileUpdateView_get_object request with
  | LoggedIn object =>
      match method request with
      | Method.GET => Ok (UserFormResponse "blog/user.html" object None, [])
      | Method.POST =>
          match UserUpdateForm_update (POST request) object with
          | Some object' =>
              Ok (PlainResponse (redirect (ProfileUpdateView_get_success_url object')),
                  [object'])
          | None =>
              Ok (UserFormResponse "blog/user.html" object (Some (POST request)), [])
          end
      end
  | AnonymousUser => Raise InternalError
  end.

(** [LoginRequiredMixin.dispatch], with the answer of
    [AccessMixin.handle_no_permission] passed on as it is. *)
Definition ProfileUpdateView (request : HttpRequest)
    : result Exception ProfileUpdateOutcome :=
  if negb (is_authenticated (user request)) then
    match AccessMixin_handle_no_permission request with
    | Ok (response, _) => Ok (PlainResponse response, [])
    | Raise e => Raise e
    end
  else ProfileUpdateView_handler request.

End ProfileUpdate.

(** The users a [ProfileUpdateView] outcome saves, and the state after. *)
Definition users_saved (r : result Exception ProfileUpdateOutcome) : list User.t :=
  match r with
  | Ok (_, saved) => saved
  | Raise _ => []
  end.

Definition save_users (db : DB) (saved : list User.t) : DB :=
  mkDB (fold_left (fun table u => save_row User.pk u table) saved (users db))
       (categories db) (posts db) (comments db).

(** A stand-in for [UserUpdateForm]: a new [username] that is not empty. *)
Definition sample_UserUpdateForm_update (data : QueryDict) (u : User.t)
    : option User.t :=
  match QueryDict_get "username" data with
  | Some name => if String.eqb name "" then None else Some (User.mk (User.pk u) name)
  | None => None
  end.

(** ** Further notions for the properties below *)

(** All pages of ten of a list, first to last. *)
Definition pages_of (A : Type) (l : list A) : list (list A) :=
  map (fun k => tenth (Z.of_nat k) l) (seq 1 (Z.to_nat (last_page (length l)))).

(** The row a view inserts for a new post, under the key the table gives it. *)
Definition inserted_post (db : DB) (is_published : bool) (pub_date : Z)
    (author : User.t) (category : Category.t) (location : Z) : Post.t :=
  Post.mk (next_pk (map Post.pk (posts db))) is_published pub_date author
          category location.

(** A request with a [page] parameter. *)
Definition get_page_request (ru : RequestUser) (page : string) : HttpRequest :=
  mkRequest Method.GET ru [("page", page)] [].

(** A user who has written no post and no comment of the sample. *)
Definition carol : User.t := User.mk 3 "carol".

(** The sample without its comments: the same users, categories and posts. *)
Definition sample_db_without_comments : DB :=
  mkDB (users sample_db) (categories sample_db) (posts sample_db) [].

(** The posts on the page of a context, as the template gets them. *)
Definition shown_posts (c : result Exception Context) : list PostObj :=
  match c with
  | Ok c =>
      match context_page c with
      | Some page => page_object_list page
      | None => []
      end
  | Raise _ => []
  end.


(** Case analysis on a [match] whose scrutinee holds no [match] itself. *)
Ltac break_innermost_match :=
  match goal with
  | |- context [match ?x with _ => _ end] =>
      lazymatch x with
      | context [match _ with _ => _ end] => fail
      | _ => destruct x
      end
  end.

(** Lay the views that write open, down to their guards and handlers. *)
Ltac unfold_writing_views :=
  unfold run, PostCreateView, PostCreateView_handler, PostCreateView_form_valid,
    PostCreateView_get_success_url,
    PostUpdateView, PostUpdateView_dispatch, PostUpdateView_handler,
    PostDeleteView, PostDeleteView_dispatch, PostDeleteView_handler,
    add_comment, login_required, CommentForm,
    CommentUpdateView, CommentUpdateView_dispatch, CommentUpdateView_handler,
    CommentUpdateView_get_success_url,
    CommentDeleteView, CommentDeleteView_dispatch, CommentDeleteView_handler,
    CommentDeleteView_get_success_url,
    EditMixin_dispatch, EditMixin_test_func, EditMixin_handle_no_permission,
    LoginRequiredMixin_dispatch, UserPassesTestMixin_dispatch,
    AccessMixin_handle_no_permission, redirect, render.

(** ** Lists: sorting, filtering, slicing *)

Section OrderByFacts.
Variable A : Type.
Variable leb : A -> A -> bool.

Lemma insert_sorted_perm (x : A) (l : list A) :
  Permutation (insert_sorted leb x l) (x :: l).
Proof.
  induction l as [|y l IH]; simpl.
  - apply Permutation_refl.
  - destruct (leb x y).
    + apply Permutation_refl.
    + eapply perm_trans; [apply perm_skip, IH | apply perm_swap].
Qed.

Lemma order_by_perm (l : list A) : Permutation (order_by leb l) l.
Proof.
  induction l as [|x l IH]; simpl.
  - constructor.
  - eapply perm_trans; [apply insert_sorted_perm | apply perm_skip, IH].
Qed.

Lemma order_by_length (l : list A) : length (order_by leb l) = length l.
Proof. apply Permutation_length, order_by_perm. Qed.

Hypothesis leb_total : forall a b, leb a b = true \/ leb b a = true.

Lemma insert_sorted_hd (x a : A) (l : list A) :
  leb a x = true ->
  HdRel (fun u v => leb u v = true) a l ->
  HdRel (fun u v => leb u v = true) a (insert_sorted leb x l).
Proof.
  intros Hax Hhd. destruct l as [|y l]; simpl.
  - constructor. exact Hax.
  - destruct (leb x y); constructor.
    + exact Hax.
    + inversion Hhd; assumption.
Qed.

Lemma insert_sorted_Sorted (x : A) (l : list A) :
  Sorted (fun u v => leb u v = true) l ->
  Sorted (fun u v => leb u v = true) (insert_sorted leb x l).
Proof.
  induction l as [|y l IH]; intros Hs; simpl.
  - repeat constructor.
  - destruct (leb x y) eqn:Hxy.
    + constructor; [exact Hs | constructor; exact Hxy].
    + inversion Hs as [|? ? Hs' Hhd]; subst.
      constructor; [apply IH; exact Hs'|].
      apply insert_sorted_hd; [|exact Hhd].
      destruct (leb_total x y) as [H|H]; [congruence | exact H].
Qed.

Lemma order_by_Sorted (l : list A) :
  Sorted (fun u v => leb u v = true) (order_by leb l).
Proof.
  induction l as [|x l IH]; simpl.
  - constructor.
  - apply insert_sorted_Sorted, IH.
Qed.
End OrderByFacts.

Lemma insert_sorted_map (A B : Type) (f : A -> B) (leb : B -> B -> bool)
    (x : A) (l : list A) :
  map f (insert_sorted (fun a b => leb (f a) (f b)) x l)
  = insert_sorted leb (f x) (map f l).
Proof.
  induction l as [|y l IH]; simpl; [reflexivity|].
  destruct (leb (f x) (f y)); simpl; [reflexivity | now rewrite IH].
Qed.

Lemma order_by_map (A B : Type) (f : A -> B) (leb : B -> B -> bool) (l : list A) :
  map f (order_by (fun a b => leb (f a) (f b)) l) = order_by leb (map f l).
Proof.
  induction l as [|x l IH]; simpl; [reflexivity|].
  now rewrite insert_sorted_map, IH.
Qed.

Lemma filter_map_comm (A B : Type) (f : A -> B) (g : B -> bool) (l : list A) :
  filter g (map f l) = map f (filter (fun a => g (f a)) l).
Proof.
  induction l as [|x l IH]; simpl; [reflexivity|].
  destruct (g (f x)); simpl; now rewrite IH.
Qed.

Lemma filter_filter (A : Type) (f g : A -> bool) (l : list A) :
  filter g (filter f l) = filter (fun a => f a && g a) l.
Proof.
  induction l as [|x l IH]; simpl; [reflexivity|].
  destruct (f x); simpl; [destruct (g x)|]; now rewrite IH.
Qed.

Lemma map_row_annotate (db : DB) (qs : list Post.t) :
  map row (annotate_comment_count db qs) = qs.
Proof.
  unfold annotate_comment_count. rewrite map_map. simpl. apply map_id.
Qed.

(** The query builder in one line: annotate the chosen rows, then sort. *)
Lemma get_annotated_posts_eq (ordering : Post.t -> Post.t -> bool) (db : DB)
    (now : Z) (queryset : option (list Post.t)) (published_only : bool) :
  get_annotated_posts ordering db now queryset published_only
  = order_by (fun a b => ordering (row a) (row b))
      (annotate_comment_count db
         (if published_only
          then filter (is_publicb now) (input_posts db queryset)
          else input_posts db queryset)).
Proof.
  unfold get_annotated_posts, input_posts, select_related, Post_objects_all.
  destruct published_only; [|reflexivity].
  f_equal. unfold annotate_comment_count. rewrite filter_map_comm. reflexivity.
Qed.

Lemma get_annotated_posts_rows (ordering : Post.t -> Post.t -> bool) (db : DB)
    (now : Z) (queryset : option (list Post.t)) (published_only : bool) :
  map row (get_annotated_posts ordering db now queryset published_only)
  = order_by ordering
      (if published_only
       then filter (is_publicb now) (input_posts db queryset)
       else input_posts db queryset).
Proof.
  rewrite get_annotated_posts_eq, order_by_map, map_row_annotate. reflexivity.
Qed.

Lemma get_annotated_posts_counts (ordering : Post.t -> Post.t -> bool) (db : DB)
    (now : Z) (queryset : option (list Post.t)) (published_only : bool) :
  Forall (fun o => comment_count o = Some (comments_on db (row o)))
         (get_annotated_posts ordering db now queryset published_only).
Proof.
  rewrite get_annotated_posts_eq. apply Forall_forall. intros o Ho.
  apply (Permutation_in _ (order_by_perm _ _)) in Ho.
  unfold annotate_comment_count in Ho. apply in_map_iff in Ho.
  destruct Ho as [p [<- _]]. reflexivity.
Qed.

(** C3: for every queryset handed to the query builder (or the whole table
    when none is), every post of the result carries [comment_count], the
    number of comments attached to it; the result is sorted by the default
    ordering of the model; and its rows are, up to order, the published rows
    of the input when [published_only] is set and all rows of the input
    otherwise. *)
Theorem get_annotated_posts_filters_annotates_orders :
  forall (ordering : Post.t -> Post.t -> bool) (db : DB) (now : Z)
         (queryset : option (list Post.t)) (published_only : bool),
    (forall a b, ordering a b = true \/ ordering b a = true) ->
    let result := get_annotated_posts ordering db now queryset published_only in
    Forall (fun o => comment_count o = Some (comments_on db (row o))) result
    /\ Sorted (fun a b => ordering (row a) (row b) = true) result
    /\ Permutation (map row result)
         (if published_only
          then filter (is_publicb now) (input_posts db queryset)
          else input_posts db queryset).
Proof.
  intros ordering db now queryset published_only Htotal result.
  split; [apply get_annotated_posts_counts|].
  split.
  - unfold result. rewrite get_annotated_posts_eq.
    apply order_by_Sorted. intros a b. apply Htotal.
  - unfold result. rewrite get_annotated_posts_rows. apply order_by_perm.
Qed.

(** ** The paginator, ten to a page *)

Lemma last_page_pos (n : nat) : 1 <= last_page n.
Proof.
  unfold last_page. apply Z.div_le_lower_bound; lia.
Qed.

Lemma num_pages_10 (l : list PostObj) :
  num_pages (Paginator_10 l) = last_page (length l).
Proof.
  unfold num_pages, Paginator_10, count, last_page. simpl.
  rewrite andb_false_r. f_equal. lia.
Qed.

Lemma slice_tenth (A : Type) (l : list A) (k : Z) :
  1 <= k ->
  slice l ((k - 1) * 10)
    (if (k - 1) * 10 + 10 + 0 >=? Z.of_nat (length l)
     then Z.of_nat (length l) else (k - 1) * 10 + 10)
  = tenth k l.
Proof.
  intros Hk. unfold slice, tenth.
  replace (10 * (k - 1)) with ((k - 1) * 10) by lia.
  set (b := (k - 1) * 10).
  assert (Hlen : length (skipn (Z.to_nat b) l) = (length l - Z.to_nat b)%nat)
    by apply length_skipn.
  destruct (b + 10 + 0 >=? Z.of_nat (length l)) eqn:Hge.
  - apply Z.geb_le in Hge.
    rewrite !firstn_all2; [reflexivity | lia | lia].
  - replace (b + 10 - b) with 10 by lia. reflexivity.
Qed.

Lemma validate_number_settled (pyint : string -> option Z) (l : list PostObj)
    (k : Z) :
  1 <= k <= last_page (length l) ->
  validate_number pyint (Paginator_10 l) (PyInt k) = Ok k.
Proof.
  intros [H1 H2]. unfold validate_number. simpl. rewrite num_pages_10.
  destruct (k <? 1) eqn:E1; [apply Z.ltb_lt in E1; lia|].
  destruct (k >? last_page (length l)) eqn:E2; [|reflexivity].
  apply Z.gtb_lt in E2. lia.
Qed.

Lemma Paginator_page_10 (pyint : string -> option Z) (l : list PostObj) (k : Z) :
  1 <= k <= last_page (length l) ->
  Paginator_page pyint (Paginator_10 l) (PyInt k)
  = Ok (mkPage (tenth k l) k (Paginator_10 l)).
Proof.
  intros Hk. unfold Paginator_page.
  rewrite (validate_number_settled pyint l Hk). simpl.
  unfold count. simpl. rewrite slice_tenth by lia. reflexivity.
Qed.

Lemma settled_number_range (asked : option Z) (n : nat) :
  1 <= settled_number asked n <= last_page n.
Proof.
  pose proof (last_page_pos n) as Hp. unfold settled_number.
  destruct asked as [k|]; [|lia].
  destruct (k <? 1) eqn:E1; [lia|].
  destruct (k >? last_page n) eqn:E2; [lia|].
  apply Z.ltb_ge in E1.
  destruct (Z.gtb_spec k (last_page n)); [discriminate | lia].
Qed.

(** [get_page] never fails on a paginator of ten: it delivers the page it
    settles on. *)
Lemma get_page_10 (pyint : string -> option Z) (l : list PostObj) (v : PyValue) :
  get_page pyint (Paginator_10 l) v
  = Ok (mkPage (tenth (settled_number (python_int_of pyint v) (length l)) l)
               (settled_number (python_int_of pyint v) (length l))
               (Paginator_10 l)).
Proof.
  unfold get_page.
  assert (Hn : match validate_number pyint (Paginator_10 l) v with
               | Ok number => number
               | Raise PageNotAnInteger => 1
               | Raise EmptyPage => num_pages (Paginator_10 l)
               end = settled_number (python_int_of pyint v) (length l)).
  { unfold validate_number, settled_number. rewrite num_pages_10.
    destruct (python_int_of pyint v) as [k|]; [|reflexivity].
    destruct (k <? 1); [reflexivity|].
    destruct (k >? last_page (length l)); reflexivity. }
  rewrite Hn. apply Paginator_page_10, settled_number_range.
Qed.

Lemma tenth_length (A : Type) (k : Z) (l : list A) : (length (tenth k l) <= 10)%nat.
Proof. unfold tenth. apply firstn_le_length. Qed.

Lemma tenth_map (A B : Type) (f : A -> B) (k : Z) (l : list A) :
  map f (tenth k l) = tenth k (map f l).
Proof. unfold tenth. now rewrite skipn_map, firstn_map. Qed.

Lemma Paginator_page_10_inv (pyint : string -> option Z) (l : list PostObj)
    (k : Z) (page : Page) :
  Paginator_page pyint (Paginator_10 l) (PyInt k) = Ok page ->
  1 <= k <= last_page (length l) /\ page = mkPage (tenth k l) k (Paginator_10 l).
Proof.
  intros Hpage.
  assert (Hk : 1 <= k <= last_page (length l)).
  { unfold Paginator_page, validate_number in Hpage. simpl in Hpage.
    rewrite num_pages_10 in Hpage.
    destruct (k <? 1) eqn:E1; [discriminate|].
    destruct (k >? last_page (length l)) eqn:E2; [discriminate|].
    apply Z.ltb_ge in E1.
    destruct (Z.gtb_spec k (last_page (length l))); [discriminate | lia]. }
  split; [exact Hk|].
  rewrite (Paginator_page_10 pyint l Hk) in Hpage. congruence.
Qed.

(** The list view hands out a page only when the page asked for exists. *)
Lemma paginate_queryset_10 (pyint : string -> option Z) (request : HttpRequest)
    (l : list PostObj) (page : Page) :
  paginate_queryset pyint request l 10 = Ok page ->
  exists k, 1 <= k <= last_page (length l)
            /\ page = mkPage (tenth k l) k (Paginator_10 l).
Proof.
  unfold paginate_queryset. fold (Paginator_10 l).
  set (asked := match QueryDict_get "page" (GET request) with
                | Some s => if String.eqb s "" then PyInt 1 else PyStr s
                | None => PyInt 1
                end).
  destruct (match asked with
            | PyNone => Raise InternalError
            | PyStr s =>
                match pyint s with
                | Some n => Ok n
                | None =>
                    if String.eqb s "last" then Ok (num_pages (Paginator_10 l))
                    else Raise Http404
                end
            | PyInt n => Ok n
            end) as [k|e]; simpl; [|discriminate].
  destruct (Paginator_page pyint (Paginator_10 l) (PyInt k)) as [pg|e] eqn:Hp;
    [|discriminate].
  intros Heq. injection Heq as <-. exists k.
  apply (Paginator_page_10_inv pyint l k Hp).
Qed.

Lemma PostsListView_page (ordering : Post.t -> Post.t -> bool)
    (pyint : string -> option Z) (db : DB) (now : Z) (request : HttpRequest)
    (page : Page) :
  response_page (PostsListView ordering pyint db now request) = Some page ->
  exists k,
    1 <= k <= last_page (length (get_annotated_posts ordering db now None true))
    /\ page = mkPage (tenth k (get_annotated_posts ordering db now None true)) k
                (Paginator_10 (get_annotated_posts ordering db now None true)).
Proof.
  unfold PostsListView, PostsListView_get_queryset, PostsListView_paginate_by.
  destruct (method request); [|discriminate].
  destruct (paginate_queryset pyint request
              (get_annotated_posts ordering db now None true) 10)
    as [pg|e] eqn:Hp; simpl; [|discriminate].
  intros Heq. injection Heq as <-.
  apply (paginate_queryset_10 pyint request _ Hp).
Qed.

Lemma category_posts_response (ordering : Post.t -> Post.t -> bool)
    (pyint : string -> option Z) (db : DB) (now : Z) (request : HttpRequest)
    (category_slug : string) (category : Category.t) :
  get_category_or_404 db category_slug = Ok category ->
  let posts :=
    get_annotated_posts ordering db now (Some (Category_posts db category)) true in
  let k := settled_number (python_int_of pyint (page_number_of request))
             (length posts) in
  category_posts ordering pyint db now request category_slug
  = Ok (render "blog/category.html"
          (CategoryContext (mkPage (tenth k posts) k (Paginator_10 posts))
                           category)).
Proof.
  intros Hc posts k. unfold category_posts. rewrite Hc. simpl.
  fold posts. rewrite get_page_10. reflexivity.
Qed.

Lemma ProfileView_context (ordering : Post.t -> Post.t -> bool)
    (pyint : string -> option Z) (db : DB) (now : Z) (request : HttpRequest)
    (owner : User.t) :
  let posts :=
    get_annotated_posts ordering db now
      (Some (Post_objects_filter_author db owner))
      (negb (user_eq (user request) owner)) in
  let k := settled_number (python_int_of pyint (page_number_of request))
             (length posts) in
  ProfileView_get_context_data ordering pyint db now request owner
  = Ok (ProfileContext owner (mkPage (tenth k posts) k (Paginator_10 posts))).
Proof.
  intros posts k. unfold ProfileView_get_context_data.
  assert (Hposts :
            (if is_authenticated (user request) && user_eq (user request) owner
             then get_annotated_posts ordering db now
                    (Some (Post_objects_filter_author db owner)) false
             else get_annotated_posts ordering db now
                    (Some (Post_objects_filter_author db owner)) true) = posts).
  { unfold posts. destruct (user request) as [|u]; simpl; [reflexivity|].
    destruct (User.eqb u owner); reflexivity. }
  rewrite Hposts, get_page_10. reflexivity.
Qed.

(** C10: the page of posts that the list, the category or the profile view
    hands to its template holds at most ten posts. *)
Theorem page_holds_at_most_ten_posts :
  forall (ordering : Post.t -> Post.t -> bool) (pyint : string -> option Z)
         (db : DB) (now : Z) (request : HttpRequest)
         (category_slug username : string) (page : Page),
    response_page (PostsListView ordering pyint db now request) = Some page
    \/ response_page (category_posts ordering pyint db now request category_slug)
       = Some page
    \/ response_page (ProfileView ordering pyint db now request username)
       = Some page ->
    (length (page_object_list page) <= 10)%nat.
Proof.
  intros ordering pyint db now request category_slug username page
         [Hl | [Hc | Hp]].
  - apply PostsListView_page in Hl. destruct Hl as [k [_ ->]]. simpl.
    apply tenth_length.
  - destruct (get_category_or_404 db category_slug) as [c|e] eqn:Hcat.
    + rewrite (category_posts_response ordering pyint db now request _ Hcat) in Hc.
      simpl in Hc. injection Hc as <-. simpl. apply tenth_length.
    + unfold category_posts in Hc. rewrite Hcat in Hc. discriminate.
  - unfold ProfileView in Hp.
    destruct (method request); [|discriminate].
    destruct (ProfileView_get_object db username) as [owner|e]; [|discriminate].
    simpl in Hp. rewrite ProfileView_context in Hp. simpl in Hp.
    injection Hp as <-. simpl. apply tenth_length.
Qed.

(** ** The page views *)

(** C4, as the code has it: the list, the category and the profile view
    take their posts from the query builder and hand the template one page
    of ten of them; the detail view fetches its one post by key, without the
    query builder, and hands it over with all of its comments. *)
Theorem three_page_views_query_and_paginate :
  forall (ordering : Post.t -> Post.t -> bool) (pyint : string -> option Z)
         (db : DB) (now : Z) (request : HttpRequest)
         (category_slug username : string) (post_id : Z),
    let asked := python_int_of pyint (page_number_of request) in
    let all_public := get_annotated_posts ordering db now None true in
    (forall page,
        response_page (PostsListView ordering pyint db now request) = Some page ->
        exists k, 1 <= k <= last_page (length all_public)
                  /\ page = mkPage (tenth k all_public) k (Paginator_10 all_public))
    /\ category_posts ordering pyint db now request category_slug
       = (category <- get_category_or_404 db category_slug ;;
          let in_category :=
            get_annotated_posts ordering db now
              (Some (Category_posts db category)) true in
          let k := settled_number asked (length in_category) in
          Ok (render "blog/category.html"
                (CategoryContext
                   (mkPage (tenth k in_category) k (Paginator_10 in_category))
                   category)))
    /\ ProfileView ordering pyint db now request username
       = match method request with
         | Method.GET =>
             owner <- ProfileView_get_object db username ;;
             let by_owner :=
               get_annotated_posts ordering db now
                 (Some (Post_objects_filter_author db owner))
                 (negb (user_eq (user request) owner)) in
             let k := settled_number asked (length by_owner) in
             Ok (render "blog/profile.html"
                   (ProfileContext owner
                      (mkPage (tenth k by_owner) k (Paginator_10 by_owner))))
         | Method.POST => Ok HttpResponseNotAllowed
         end
    /\ PostDetailView db now request post_id
       = match method request with
         | Method.GET =>
             post <- PostDetailView_get_object db now request post_id ;;
             Ok (render "blog/detail.html"
                   (DetailContext (mkPostObj post None) (Post_comments db post)))
         | Method.POST => Ok HttpResponseNotAllowed
         end.
Proof.
  intros ordering pyint db now request category_slug username post_id
         asked all_public.
  split; [intros page Hpage;
          apply (PostsListView_page ordering pyint db now request Hpage)|].
  split; [|split; [|reflexivity]].
  - destruct (get_category_or_404 db category_slug) as [category|e] eqn:Hcat.
    + rewrite (category_posts_response ordering pyint db now request _ Hcat).
      reflexivity.
    + unfold category_posts. rewrite Hcat. reflexivity.
  - unfold ProfileView. destruct (method request); [|reflexivity].
    destruct (ProfileView_get_object db username) as [owner|e]; [|reflexivity].
    simpl. rewrite ProfileView_context. reflexivity.
Qed.

Lemma three_page_views_query_and_paginate_witness :
  response_page (PostsListView newest_first decimal_int sample_db 10 anonymous_get)
  = Some (mkPage [mkPostObj post_of_bob (Some 1%nat);
                  mkPostObj post_public (Some 2%nat)]
                 1
                 (Paginator_10 [mkPostObj post_of_bob (Some 1%nat);
                                mkPostObj post_public (Some 2%nat)]))
  /\ exists k,
       1 <= k <= last_page 2
       /\ mkPage [mkPostObj post_of_bob (Some 1%nat);
                  mkPostObj post_public (Some 2%nat)]
                 1
                 (Paginator_10 [mkPostObj post_of_bob (Some 1%nat);
                                mkPostObj post_public (Some 2%nat)])
          = mkPage (tenth k [mkPostObj post_of_bob (Some 1%nat);
                             mkPostObj post_public (Some 2%nat)])
                   k
                   (Paginator_10 [mkPostObj post_of_bob (Some 1%nat);
                                  mkPostObj post_public (Some 2%nat)]).
Proof.
  split; [reflexivity|].
  apply (proj1 (@three_page_views_query_and_paginate
                  newest_first decimal_int sample_db 10 anonymous_get
                  "travel" "alice" 1)).
  reflexivity.
Defined.

(** C4 as the specification words it fails for the detail view: the post
    it hands to its template has no [comment_count], so it is no element of
    anything the query builder returns, and its eleven comments arrive
    unpaginated. *)
Lemma detail_view_neither_queries_builder_nor_paginates :
  PostDetailView busy_db 10 anonymous_get 1
  = Ok (render "blog/detail.html"
          (DetailContext (mkPostObj post_public None) eleven_comments))
  /\ (forall ordering queryset published_only,
        ~ In (mkPostObj post_public None)
             (get_annotated_posts ordering busy_db 10 queryset published_only))
  /\ length eleven_comments = 11%nat.
Proof.
  split; [reflexivity|]. split; [|reflexivity].
  intros ordering queryset published_only Hin.
  pose proof (get_annotated_posts_counts ordering busy_db 10 queryset
                published_only) as Hall.
  rewrite Forall_forall in Hall. apply Hall in Hin. discriminate.
Qed.

(** ** Who sees a post *)

Lemma find_filter (A : Type) (f g : A -> bool) (l : list A) :
  find f (filter g l) = find (fun x => f x && g x) l.
Proof.
  induction l as [|x l IH]; simpl; [reflexivity|].
  destruct (g x); simpl.
  - rewrite andb_true_r. destruct (f x); [reflexivity | exact IH].
  - rewrite andb_false_r. exact IH.
Qed.

Lemma user_eq_authenticated (ru : RequestUser) (u : User.t) :
  is_authenticated ru && user_eq ru u = user_eq ru u.
Proof. destruct ru; reflexivity. Qed.

Lemma PostDetailView_get_object_eq (db : DB) (now : Z) (request : HttpRequest)
    (post_id : Z) (post : Post.t) :
  Post_get_object db post_id = Ok post ->
  PostDetailView_get_object db now request post_id
  = if user_eq (user request) (Post.author post) then Ok post
    else if is_publicb now post then Ok post
    else Raise Http404.
Proof.
  intros Hpost. unfold PostDetailView_get_object.
  unfold Post_get_object in Hpost. rewrite Hpost. simpl.
  rewrite user_eq_authenticated. reflexivity.
Qed.

Lemma is_publicb_false_iff (now : Z) (p : Post.t) :
  is_publicb now p = false
  <-> Post.is_published p = false
      \/ Category.is_published (Post.category p) = false
      \/ now < Post.pub_date p.
Proof.
  unfold is_publicb. rewrite !andb_false_iff, Z.leb_gt. tauto.
Qed.

(** C1, as the code has it: a post is public exactly when its flag is set,
    the flag of its category is set and its date of publication is not in
    the future, that is, when the flag-and-date rule holds of the post and
    the flag rule of its category.  The published-only filter of the query
    builder keeps exactly the public posts; the detail view, past its
    exception for the author, returns exactly the public posts; and the
    category page looks its category up among those whose flag is set. *)
Theorem public_by_post_flag_category_flag_and_date :
  forall (ordering : Post.t -> Post.t -> bool) (db : DB) (now : Z)
         (queryset : option (list Post.t)) (request : HttpRequest)
         (post_id : Z) (category_slug : string) (p : Post.t),
    Permutation (map row (get_annotated_posts ordering db now queryset true))
                (filter (is_publicb now) (input_posts db queryset))
    /\ PostDetailView_get_object db now request post_id
       = (post <- Post_get_object db post_id ;;
          if user_eq (user request) (Post.author post) then Ok post
          else if is_publicb now post then Ok post
          else Raise Http404)
    /\ is_publicb now p
       = flag_and_dateb now p && Category.is_published (Post.category p)
    /\ get_category_or_404 db category_slug
       = match find (fun c => String.eqb (Category.slug c) category_slug)
                    (filter Category.is_published (categories db)) with
         | Some c => Ok c
         | None => Raise Http404
         end.
Proof.
  intros ordering db now queryset request post_id category_slug p.
  split; [rewrite get_annotated_posts_rows; apply order_by_perm|].
  split.
  - destruct (Post_get_object db post_id) as [post|e] eqn:Hpost.
    + apply (PostDetailView_get_object_eq db now request post_id Hpost).
    + unfold PostDetailView_get_object. unfold Post_get_object in Hpost.
      rewrite Hpost. reflexivity.
  - split.
    + unfold is_publicb, flag_and_dateb.
      destruct (Post.is_published p), (Category.is_published (Post.category p)),
               (Post.pub_date p <=? now); reflexivity.
    + unfold get_category_or_404. rewrite find_filter. reflexivity.
Qed.

(** C1 as the specification words it fails: a post whose flag is set and
    whose date has come, in a category whose flag is not set, is neither in
    the published-only result of the query builder nor shown by the detail
    view. *)
Lemma post_flag_and_date_do_not_suffice :
  flag_and_dateb 10 post_hidden_category = true
  /\ In post_hidden_category (posts sample_db)
  /\ (forall ordering,
        ~ In post_hidden_category
             (map row (get_annotated_posts ordering sample_db 10 None true)))
  /\ PostDetailView_get_object sample_db 10 anonymous_get 2 = Raise Http404.
Proof.
  split; [reflexivity|]. split; [simpl; tauto|]. split; [|reflexivity].
  intros ordering Hin. rewrite get_annotated_posts_rows in Hin.
  apply (Permutation_in _ (order_by_perm _ _)) in Hin.
  simpl in Hin. destruct Hin as [H | [H | []]]; discriminate.
Qed.

(** C7: the detail view returns an existing post to its author whatever its
    state of publication; to anyone else it returns the post when it is
    public and raises [Http404] when it is not (flag of the post unset, flag
    of the category unset, or date in the future), and then no template and
    no data of the post are in the response. *)
Theorem detail_view_author_or_public :
  forall (db : DB) (now : Z) (request : HttpRequest) (post_id : Z) (post : Post.t),
    Post_get_object db post_id = Ok post ->
    PostDetailView_get_object db now request post_id
    = (if user_eq (user request) (Post.author post) then Ok post
       else if is_publicb now post then Ok post
       else Raise Http404)
    /\ (is_publicb now post = false
        <-> Post.is_published post = false
            \/ Category.is_published (Post.category post) = false
            \/ now < Post.pub_date post)
    /\ PostDetailView db now request post_id
       = match method request with
         | Method.GET =>
             if user_eq (user request) (Post.author post) || is_publicb now post
             then Ok (render "blog/detail.html"
                        (DetailContext (mkPostObj post None) (Post_comments db post)))
             else Raise Http404
         | Method.POST => Ok HttpResponseNotAllowed
         end.
Proof.
  intros db now request post_id post Hpost.
  pose proof (PostDetailView_get_object_eq db now request post_id Hpost) as Hobj.
  split; [exact Hobj|]. split; [apply is_publicb_false_iff|].
  unfold PostDetailView. rewrite Hobj.
  destruct (method request); [|reflexivity].
  destruct (user_eq (user request) (Post.author post)); simpl; [reflexivity|].
  destruct (is_publicb now post); reflexivity.
Qed.

Lemma detail_view_author_or_public_witness :
  Post_get_object sample_db 3 = Ok post_unpublished
  /\ PostDetailView_get_object sample_db 10
       (mkRequest Method.GET (LoggedIn alice) [] []) 3 = Ok post_unpublished
  /\ PostDetailView_get_object sample_db 10
       (mkRequest Method.GET (LoggedIn bob) [] []) 3 = Raise Http404.
Proof.
  split; [reflexivity|]. split.
  - exact (proj1 (@detail_view_author_or_public sample_db 10
                    (mkRequest Method.GET (LoggedIn alice) [] []) 3
                    post_unpublished eq_refl)).
  - exact (proj1 (@detail_view_author_or_public sample_db 10
                    (mkRequest Method.GET (LoggedIn bob) [] []) 3
                    post_unpublished eq_refl)).
Defined.

(** ** The views that write *)

Lemma user_eq_true_authenticated (ru : RequestUser) (u : User.t) :
  user_eq ru u = true -> is_authenticated ru = true.
Proof. destruct ru; [discriminate | reflexivity]. Qed.

(** The guard of [EditMixin], once the object is there: the handler runs
    for the author, everyone else is redirected to the post. *)
Lemma EditMixin_dispatch_eq (A : Type) (HA : Authored A) (request : HttpRequest)
    (post_id : Z) (obj : A) (super_dispatch : result Exception Outcome) :
  EditMixin_dispatch request post_id (Ok obj) super_dispatch
  = if user_eq (user request) (author_of obj) then super_dispatch
    else Ok (redirect (blog_post_detail post_id), []).
Proof.
  unfold EditMixin_dispatch, LoginRequiredMixin_dispatch,
    UserPassesTestMixin_dispatch, EditMixin_test_func,
    EditMixin_handle_no_permission.
  destruct (user request) as [|u]; simpl; [reflexivity|].
  destruct (User.eqb u (author_of obj)); reflexivity.
Qed.

Lemma CommentUpdateView_dispatch_eq (db : DB) (request : HttpRequest)
    (comment_id : Z) (comment : Comment.t)
    (super_dispatch : result Exception Outcome) :
  Comment_get_object db comment_id = Ok comment ->
  CommentUpdateView_dispatch db request comment_id super_dispatch
  = if user_eq (user request) (Comment.author comment) then super_dispatch
    else Raise PermissionDenied.
Proof.
  intros Hc. unfold CommentUpdateView_dispatch. rewrite Hc. simpl.
  destruct (user_eq (user request) (Comment.author comment)) eqn:Heq; simpl;
    [|reflexivity].
  unfold LoginRequiredMixin_dispatch.
  now rewrite (user_eq_true_authenticated _ _ Heq).
Qed.

(** C5, as the code has it: the four views that update or delete decide
    by the author.  On an existing post or comment the guard of each lets a
    request through to its handler exactly when the test of [EditMixin]
    holds, and that test is the comparison of the viewer with the author of
    the object: [PostUpdateView], [PostDeleteView] and [CommentDeleteView]
    through the mixin, [CommentUpdateView] through a check of its own in
    [dispatch] that decides as the mixin does and refuses with [403] where
    the mixin redirects.  The two views that create have no test of the
    author: [PostCreateView] and [add_comment] let every logged-in user
    through and send an anonymous visitor to the login page. *)
Theorem edit_views_test_the_author_create_views_the_login :
  forall (PostForm_clean : QueryDict -> option PostDraft)
         (CommentForm_clean : QueryDict -> option string)
         (db : DB) (now : Z) (request : HttpRequest) (post_id comment_id : Z)
         (handler : result Exception Outcome),
    (forall post,
        Post_get_object db post_id = Ok post ->
        EditMixin_test_func request (Post_get_object db post_id)
        = Ok (user_eq (user request) (Post.author post))
        /\ PostUpdateView_dispatch db request post_id handler
           = (if user_eq (user request) (Post.author post) then handler
              else Ok (redirect (blog_post_detail post_id), []))
        /\ PostDeleteView_dispatch db request post_id handler
           = (if user_eq (user request) (Post.author post) then handler
              else Ok (redirect (blog_post_detail post_id), [])))
    /\ (forall comment,
          Comment_get_object db comment_id = Ok comment ->
          EditMixin_test_func request (Comment_get_object db comment_id)
          = Ok (user_eq (user request) (Comment.author comment))
          /\ CommentUpdateView_dispatch db request comment_id handler
             = (if user_eq (user request) (Comment.author comment) then handler
                else Raise PermissionDenied)
          /\ CommentDeleteView_dispatch db request post_id comment_id handler
             = (if user_eq (user request) (Comment.author comment) then handler
                else Ok (redirect (blog_post_detail post_id), [])))
    /\ PostCreateView PostForm_clean now request
       = match user request with
         | AnonymousUser => Ok (redirect login, [])
         | LoggedIn _ => PostCreateView_handler PostForm_clean now request
         end
    /\ add_comment CommentForm_clean db request post_id
       = match user request with
         | AnonymousUser => Ok (redirect login, [])
         | LoggedIn u =>
             post <- Post_get_object db post_id ;;
             Ok (redirect (blog_post_detail post_id),
                 match CommentForm CommentForm_clean (POST_or_None request) with
                 | Some text => [InsertComment u (Post.pk post) text]
                 | None => []
                 end)
         end.
Proof.
  intros PostForm_clean CommentForm_clean db now request post_id comment_id
         handler.
  split; [|split; [|split]].
  - intros post Hp.
    unfold PostUpdateView_dispatch, PostDeleteView_dispatch.
    rewrite Hp, !EditMixin_dispatch_eq. repeat split; reflexivity.
  - intros comment Hc. unfold CommentDeleteView_dispatch.
    rewrite (CommentUpdateView_dispatch_eq db request comment_id handler Hc).
    rewrite Hc, EditMixin_dispatch_eq. repeat split; reflexivity.
  - unfold PostCreateView, LoginRequiredMixin_dispatch,
      AccessMixin_handle_no_permission.
    destruct (user request); reflexivity.
  - unfold add_comment, login_required, Post_get_object.
    destruct (user request) as [|u]; simpl; [reflexivity|].
    destruct (get_by_pk Post.pk (Post_objects_all db) post_id) as [post|e];
      simpl; [|reflexivity].
    destruct (CommentForm CommentForm_clean (POST_or_None request)); reflexivity.
Qed.

Lemma edit_views_test_the_author_create_views_the_login_witness :
  Post_get_object sample_db 1 = Ok post_public
  /\ Comment_get_object sample_db 1 = Ok comment_1
  /\ PostUpdateView_dispatch sample_db (post_as bob []) 1
       (Ok (redirect blog_index, []))
     = Ok (redirect (blog_post_detail 1), [])
  /\ CommentUpdateView_dispatch sample_db (post_as alice []) 1
       (Ok (redirect blog_index, []))
     = Raise PermissionDenied
  /\ CommentDeleteView_dispatch sample_db (post_as bob []) 1 1
       (Ok (redirect blog_index, []))
     = Ok (redirect blog_index, []).
Proof.
  split; [reflexivity|]. split; [reflexivity|]. split; [|split].
  - exact (proj1 (proj2 (proj1
            (@edit_views_test_the_author_create_views_the_login
               sample_PostForm_clean sample_CommentForm_clean sample_db 10
               (post_as bob []) 1 1 (Ok (redirect blog_index, [])))
            post_public eq_refl))).
  - exact (proj1 (proj2 (proj1 (proj2
            (@edit_views_test_the_author_create_views_the_login
               sample_PostForm_clean sample_CommentForm_clean sample_db 10
               (post_as alice []) 1 1 (Ok (redirect blog_index, []))))
            comment_1 eq_refl))).
  - exact (proj2 (proj2 (proj1 (proj2
            (@edit_views_test_the_author_create_views_the_login
               sample_PostForm_clean sample_CommentForm_clean sample_db 10
               (post_as bob []) 1 1 (Ok (redirect blog_index, []))))
            comment_1 eq_refl))).
Defined.

(** C5 as the specification words it fails: the views do not all decide by
    one shared test of the author.  A user who is the author of no post and
    of no comment creates a post and comments on the post of another; and on
    one and the same request by someone who is not the author, the guard of
    [CommentUpdateView] and the guard of [EditMixin] answer differently. *)
Lemma mutation_views_share_no_single_author_test :
  (forall p, In p (posts sample_db) ->
             user_eq (LoggedIn carol) (Post.author p) = false)
  /\ (forall c, In c (comments sample_db) ->
                user_eq (LoggedIn carol) (Comment.author c) = false)
  /\ PostCreateView sample_PostForm_clean 42
       (post_as carol [("is_published", "on")])
     = Ok (redirect (blog_profile "carol"), [InsertPost true 42 carol travel 0])
  /\ add_comment sample_CommentForm_clean sample_db
       (post_as carol [("text", "hello")]) 1
     = Ok (redirect (blog_post_detail 1), [InsertComment carol 1 "hello"])
  /\ CommentUpdateView_dispatch sample_db (post_as alice []) 1
       (Ok (redirect blog_index, []))
     = Raise PermissionDenied
  /\ EditMixin_dispatch (post_as alice []) 1 (Comment_get_object sample_db 1)
       (Ok (redirect blog_index, []))
     = Ok (redirect (blog_post_detail 1), []).
Proof.
  split.
  { simpl. intros p Hp.
    repeat (destruct Hp as [<- | Hp]; [reflexivity|]). contradiction. }
  split.
  { simpl. intros c Hc.
    repeat (destruct Hc as [<- | Hc]; [reflexivity|]). contradiction. }
  repeat split; reflexivity.
Qed.

Section WritingViews.
Variable PostForm_clean : QueryDict -> option PostDraft.
Variable PostForm_update : QueryDict -> Post.t -> option Post.t.
Variable CommentForm_clean : QueryDict -> option string.
Variable CommentForm_update : QueryDict -> Comment.t -> option Comment.t.

(** A view that updates or deletes, asked by someone who is not the author
    of the row, refuses and writes nothing. *)
Lemma edit_view_refuses (v : MutationView) (db : DB) (now : Z)
    (request : HttpRequest) (kwargs : Kwargs) (author : User.t) :
  resource_author v db kwargs = Some author ->
  user_eq (user request) author = false ->
  response_of (run PostForm_clean PostForm_update CommentForm_clean
                   CommentForm_update v db now request kwargs)
  = refusal v kwargs
  /\ writes_of (run PostForm_clean PostForm_update CommentForm_clean
                    CommentForm_update v db now request kwargs)
     = [].
Proof.
  destruct v; simpl; try discriminate; intros Ha Hneq.
  - destruct (Post_get_object db (kw_post_id kwargs)) as [post|e] eqn:Hp;
      [|discriminate].
    injection Ha as <-. unfold PostUpdateView, PostUpdateView_dispatch.
    rewrite Hp, EditMixin_dispatch_eq. unfold author_of, Post_Authored.
    rewrite Hneq. split; reflexivity.
  - destruct (Post_get_object db (kw_post_id kwargs)) as [post|e] eqn:Hp;
      [|discriminate].
    injection Ha as <-. unfold PostDeleteView, PostDeleteView_dispatch.
    rewrite Hp, EditMixin_dispatch_eq. unfold author_of, Post_Authored.
    rewrite Hneq. split; reflexivity.
  - destruct (Comment_get_object db (kw_comment_id kwargs)) as [c|e] eqn:Hc;
      [|discriminate].
    injection Ha as <-. unfold CommentUpdateView.
    rewrite (CommentUpdateView_dispatch_eq db request _ _ Hc), Hneq.
    split; reflexivity.
  - destruct (Comment_get_object db (kw_comment_id kwargs)) as [c|e] eqn:Hc;
      [|discriminate].
    injection Ha as <-. unfold CommentDeleteView, CommentDeleteView_dispatch.
    rewrite Hc, EditMixin_dispatch_eq. unfold author_of, Comment_Authored.
    rewrite Hneq. split; reflexivity.
Qed.

End WritingViews.

(** C2: when a view that updates or deletes a post or a comment is asked by
    someone who is not the author of that row, it writes nothing, the stored
    state stays as it was, and the answer is a refusal: a redirect to the
    post, or [403] from [CommentUpdateView].  So an update or a delete is
    performed only for the author. *)
Theorem only_the_author_updates_or_deletes :
  forall (PostForm_clean : QueryDict -> option PostDraft)
         (PostForm_update : QueryDict -> Post.t -> option Post.t)
         (CommentForm_clean : QueryDict -> option string)
         (CommentForm_update : QueryDict -> Comment.t -> option Comment.t)
         (v : MutationView) (db : DB) (now : Z) (request : HttpRequest)
         (kwargs : Kwargs) (author : User.t),
    In v edit_views ->
    resource_author v db kwargs = Some author ->
    user_eq (user request) author = false ->
    let outcome :=
      run PostForm_clean PostForm_update CommentForm_clean CommentForm_update
          v db now request kwargs in
    writes_of outcome = []
    /\ commit db (writes_of outcome) = db
    /\ response_of outcome = refusal v kwargs.
Proof.
  intros PostForm_clean PostForm_update CommentForm_clean CommentForm_update
         v db now request kwargs author _ Ha Hneq outcome.
  destruct (edit_view_refuses PostForm_clean PostForm_update CommentForm_clean
              CommentForm_update v db now request kwargs Ha Hneq) as [Hr Hw].
  fold outcome in Hr, Hw. rewrite Hw. repeat split. exact Hr.
Qed.

Lemma only_the_author_updates_or_deletes_witness :
  In PostDelete edit_views
  /\ resource_author PostDelete sample_db (mkKwargs 1 0) = Some alice
  /\ user_eq (user (post_as bob [])) alice = false
  /\ commit sample_db
       (writes_of (run sample_PostForm_clean sample_PostForm_update
                       sample_CommentForm_clean sample_CommentForm_update
                       PostDelete sample_db 10 (post_as bob []) (mkKwargs 1 0)))
     = sample_db.
Proof.
  assert (Hin : In PostDelete edit_views) by (simpl; tauto).
  split; [exact Hin|]. split; [reflexivity|]. split; [reflexivity|].
  exact (proj1 (proj2 (@only_the_author_updates_or_deletes
                         sample_PostForm_clean sample_PostForm_update
                         sample_CommentForm_clean sample_CommentForm_update
                         PostDelete sample_db 10 (post_as bob []) (mkKwargs 1 0)
                         alice Hin eq_refl eq_refl))).
Defined.

(** C6: whenever one of the six views that create, update or delete a post
    or a comment performs a write, its response is a redirect. *)
Theorem a_performed_mutation_redirects :
  forall (PostForm_clean : QueryDict -> option PostDraft)
         (PostForm_update : QueryDict -> Post.t -> option Post.t)
         (CommentForm_clean : QueryDict -> option string)
         (CommentForm_update : QueryDict -> Comment.t -> option Comment.t)
         (v : MutationView) (db : DB) (now : Z) (request : HttpRequest)
         (kwargs : Kwargs),
    let outcome :=
      run PostForm_clean PostForm_update CommentForm_clean CommentForm_update
          v db now request kwargs in
    writes_of outcome <> [] ->
    exists url, response_of outcome = HttpResponseRedirect url.
Proof.
  intros PostForm_clean PostForm_update CommentForm_clean CommentForm_update
         v db now request kwargs outcome.
  unfold outcome, run.
  destruct v;
    unfold PostCreateView, PostCreateView_handler, PostCreateView_form_valid,
      PostUpdateView, PostUpdateView_dispatch, PostUpdateView_handler,
      PostDeleteView, PostDeleteView_dispatch, PostDeleteView_handler,
      add_comment, login_required, CommentForm,
      CommentUpdateView, CommentUpdateView_dispatch, CommentUpdateView_handler,
      CommentDeleteView, CommentDeleteView_dispatch, CommentDeleteView_handler,
      EditMixin_dispatch, EditMixin_test_func, EditMixin_handle_no_permission,
      LoginRequiredMixin_dispatch, UserPassesTestMixin_dispatch,
      AccessMixin_handle_no_permission, Post_get_object, Comment_get_object,
      get_by_pk, bind, redirect, render;
    repeat (simpl; break_innermost_match);
    simpl; intros Hw;
    solve [ exfalso; apply Hw; reflexivity | eexists; reflexivity ].
Qed.

Lemma a_performed_mutation_redirects_witness :
  writes_of (run sample_PostForm_clean sample_PostForm_update
                 sample_CommentForm_clean sample_CommentForm_update
                 PostDelete sample_db 10 (post_as alice []) (mkKwargs 1 0))
  = [DeletePost post_public]
  /\ exists url,
       response_of (run sample_PostForm_clean sample_PostForm_update
                        sample_CommentForm_clean sample_CommentForm_update
                        PostDelete sample_db 10 (post_as alice []) (mkKwargs 1 0))
       = HttpResponseRedirect url.
Proof.
  split; [reflexivity|].
  apply (@a_performed_mutation_redirects
           sample_PostForm_clean sample_PostForm_update
           sample_CommentForm_clean sample_CommentForm_update
           PostDelete sample_db 10 (post_as alice []) (mkKwargs 1 0)).
  simpl. discriminate.
Defined.

(** ** add_comment *)

Lemma get_by_pk_pk (A : Type) (pk_of : A -> Z) (queryset : list A) (pk : Z) (o : A) :
  get_by_pk pk_of queryset pk = Ok o -> pk_of o = pk /\ In o queryset.
Proof.
  unfold get_by_pk. destruct (find _ queryset) as [x|] eqn:Hf; [|discriminate].
  intros Heq. injection Heq as <-. apply find_some in Hf.
  destruct Hf as [Hin Hpk]. apply Z.eqb_eq in Hpk. split; assumption.
Qed.

Lemma fold_max_bound (pks : list Z) (k : Z) :
  In k pks -> k <= fold_right Z.max 0 pks.
Proof.
  induction pks as [|x pks IH]; simpl; [tauto|].
  intros [-> | Hin]; [lia | specialize (IH Hin); lia].
Qed.

(** The key of a new row is not taken. *)
Lemma next_pk_fresh (pks : list Z) : ~ In (next_pk pks) pks.
Proof.
  intros Hin. apply fold_max_bound in Hin. unfold next_pk in Hin. lia.
Qed.

(** C9: asked by a logged-in user for an existing post, [add_comment]
    answers with a redirect to the detail page of that post whether or not
    the form is valid.  With a valid form its one write inserts a comment
    whose author is the user and whose post is the target, under a key that
    no comment has; with an invalid form there is no write and the stored
    state is as before. *)
Theorem add_comment_redirects_and_saves_valid_comments :
  forall (CommentForm_clean : QueryDict -> option string) (db : DB)
         (request : HttpRequest) (post_id : Z) (u : User.t) (post : Post.t),
    user request = LoggedIn u ->
    Post_get_object db post_id = Ok post ->
    let outcome := add_comment CommentForm_clean db request post_id in
    outcome = Ok (redirect (blog_post_detail (Post.pk post)), writes_of outcome)
    /\ match CommentForm CommentForm_clean (POST_or_None request) with
       | Some text =>
           writes_of outcome = [InsertComment u (Post.pk post) text]
           /\ commit db (writes_of outcome)
              = mkDB (users db) (categories db) (posts db)
                  (comments db
                   ++ [Comment.mk (next_pk (map Comment.pk (comments db)))
                                  u (Post.pk post) text])
           /\ ~ In (next_pk (map Comment.pk (comments db)))
                   (map Comment.pk (comments db))
       | None =>
           writes_of outcome = [] /\ commit db (writes_of outcome) = db
       end.
Proof.
  intros CommentForm_clean db request post_id u post Hu Hpost outcome.
  destruct (get_by_pk_pk _ _ _ Hpost) as [Hpk _].
  assert (Hout : outcome
                 = Ok (redirect (blog_post_detail (Post.pk post)),
                       match CommentForm CommentForm_clean (POST_or_None request) with
                       | Some text => [InsertComment u (Post.pk post) text]
                       | None => []
                       end)).
  { unfold outcome, add_comment, login_required. rewrite Hu. simpl.
    unfold Post_get_object in Hpost. rewrite Hpost. simpl. rewrite Hpk.
    destruct (CommentForm CommentForm_clean (POST_or_None request)); reflexivity. }
  rewrite Hout. simpl. split; [reflexivity|].
  destruct (CommentForm CommentForm_clean (POST_or_None request)) as [text|].
  - split; [reflexivity|]. split; [reflexivity | apply next_pk_fresh].
  - split; reflexivity.
Qed.

Lemma add_comment_redirects_and_saves_valid_comments_witness :
  user (post_as bob [("text", "hello")]) = LoggedIn bob
  /\ Post_get_object sample_db 1 = Ok post_public
  /\ add_comment sample_CommentForm_clean sample_db
       (post_as bob [("text", "hello")]) 1
     = Ok (redirect (blog_post_detail 1), [InsertComment bob 1 "hello"])
  /\ add_comment sample_CommentForm_clean sample_db (post_as bob [("text", "")]) 1
     = Ok (redirect (blog_post_detail 1), []).
Proof.
  split; [reflexivity|]. split; [reflexivity|]. split.
  - exact (proj1 (@add_comment_redirects_and_saves_valid_comments
                    sample_CommentForm_clean sample_db
                    (post_as bob [("text", "hello")]) 1 bob post_public
                    eq_refl eq_refl)).
  - exact (proj1 (@add_comment_redirects_and_saves_valid_comments
                    sample_CommentForm_clean sample_db
                    (post_as bob [("text", "")]) 1 bob post_public
                    eq_refl eq_refl)).
Defined.

(** ** The profile page *)

Lemma In_tenth (A : Type) (k : Z) (x : A) (l : list A) : In x (tenth k l) -> In x l.
Proof.
  unfold tenth. intros Hin.
  rewrite <- (firstn_skipn (Z.to_nat (10 * (k - 1))) l).
  apply in_or_app. right.
  rewrite <- (firstn_skipn 10 (skipn (Z.to_nat (10 * (k - 1))) l)).
  apply in_or_app. left. exact Hin.
Qed.

(** Every element of a list is on one of its pages. *)
Lemma in_some_tenth (A : Type) (x : A) (l : list A) :
  In x l -> exists k, 1 <= k <= last_page (length l) /\ In x (tenth k l).
Proof.
  intros Hin. destruct (In_nth l x x Hin) as [i [Hi Hnth]].
  pose proof (Nat.div_mod_eq i 10) as Hdiv.
  pose proof (Nat.mod_upper_bound i 10 ltac:(discriminate)) as Hmod.
  exists (Z.of_nat (i / 10) + 1). split.
  - split; [lia|]. unfold last_page. apply Z.div_le_lower_bound; lia.
  - unfold tenth.
    replace (Z.to_nat (10 * (Z.of_nat (i / 10) + 1 - 1))) with (10 * (i / 10))%nat
      by lia.
    assert (Hx : nth (i mod 10) (firstn 10 (skipn (10 * (i / 10)) l)) x = x).
    { rewrite nth_firstn.
      destruct (Nat.ltb_spec (i mod 10) 10) as [_|Hge]; [|lia].
      rewrite nth_skipn, <- Hdiv. exact Hnth. }
    rewrite <- Hx at 1. apply nth_In.
    rewrite length_firstn, length_skipn. lia.
Qed.

Lemma profile_posts_of_a_stranger (ordering : Post.t -> Post.t -> bool)
    (db : DB) (now : Z) (owner : User.t) :
  get_annotated_posts ordering db now
    (Some (Post_objects_filter_author db owner)) true
  = order_by (fun a b => ordering (row a) (row b))
      (annotate_comment_count db (owner_published db now owner)).
Proof.
  rewrite get_annotated_posts_eq. simpl.
  unfold Post_objects_filter_author, owner_published.
  now rewrite filter_filter.
Qed.

Lemma annotate_comment_count_ext (db1 db2 : DB) (l : list Post.t) :
  (forall p, In p l -> comments_on db1 p = comments_on db2 p) ->
  annotate_comment_count db1 l = annotate_comment_count db2 l.
Proof.
  intros Hc. unfold annotate_comment_count. apply map_ext_in.
  intros p Hp. f_equal. f_equal. apply (Hc p Hp).
Qed.

Lemma annotate_comment_count_length (db : DB) (l : list Post.t) :
  length (annotate_comment_count db l) = length l.
Proof. unfold annotate_comment_count. apply length_map. Qed.

Lemma profile_posts_of_the_owner (ordering : Post.t -> Post.t -> bool)
    (db : DB) (now : Z) (owner : User.t) :
  map row (get_annotated_posts ordering db now
             (Some (Post_objects_filter_author db owner)) false)
  = order_by ordering (Post_objects_filter_author db owner).
Proof. rewrite get_annotated_posts_rows. reflexivity. Qed.

Lemma settled_number_in_range (k : Z) (n : nat) :
  1 <= k <= last_page n -> settled_number (Some k) n = k.
Proof.
  intros [H1 H2]. unfold settled_number.
  destruct (k <? 1) eqn:E1; [apply Z.ltb_lt in E1; lia|].
  destruct (k >? last_page n) eqn:E2; [|reflexivity].
  apply Z.gtb_lt in E2. lia.
Qed.

(** C8, as the code has it.  To a viewer who is not the owner of the
    profile, anonymous or not, the page shows the page asked for of the
    public posts of the owner in their default order, each with its number
    of comments, and nothing else: in any two states that agree on the
    public posts of the owner the same posts are shown, and the whole page
    is the same when the states agree on the number of comments of those
    posts as well.  To the owner the page shows the page asked for of all
    posts of the owner, each with its number of comments; every post of the
    owner is on one of these pages, and asking for that page delivers it. *)
Theorem profile_shows_strangers_public_posts_only :
  forall (ordering : Post.t -> Post.t -> bool) (pyint : string -> option Z)
         (db1 db2 : DB) (now : Z) (request owner_request : HttpRequest)
         (owner : User.t),
    user_eq (user request) owner = false ->
    user_eq (user owner_request) owner = true ->
    owner_published db1 now owner = owner_published db2 now owner ->
    let public := order_by ordering (owner_published db1 now owner) in
    let own := order_by ordering (Post_objects_filter_author db1 owner) in
    let asked := python_int_of pyint (page_number_of request) in
    let owner_asked := python_int_of pyint (page_number_of owner_request) in
    let page1 := ProfileView_get_context_data ordering pyint db1 now request owner in
    let page2 := ProfileView_get_context_data ordering pyint db2 now request owner in
    let owner_page :=
      ProfileView_get_context_data ordering pyint db1 now owner_request owner in
    (* the stranger *)
    shown_rows page1 = tenth (settled_number asked (length public)) public
    /\ shown_rows page2 = tenth (settled_number asked (length public)) public
    /\ Forall (fun o => comment_count o = Some (comments_on db1 (row o)))
              (shown_posts page1)
    /\ ((forall p, In p (owner_published db1 now owner) ->
                   comments_on db1 p = comments_on db2 p) ->
        page1 = page2)
    /\ (forall p, In p (shown_rows page1) ->
                  In p (posts db1)
                  /\ User.eqb (Post.author p) owner = true
                  /\ is_publicb now p = true)
    (* the owner *)
    /\ shown_rows owner_page = tenth (settled_number owner_asked (length own)) own
    /\ Forall (fun o => comment_count o = Some (comments_on db1 (row o)))
              (shown_posts owner_page)
    /\ Permutation own (Post_objects_filter_author db1 owner)
    /\ (forall p, In p (Post_objects_filter_author db1 owner) ->
          exists k, 1 <= k <= last_page (length own)
                    /\ settled_number (Some k) (length own) = k
                    /\ In p (tenth k own)).
Proof.
  intros ordering pyint db1 db2 now request owner_request owner
         Hstranger Howner Hagree public own asked owner_asked
         page1 page2 owner_page.
  unfold page1, page2, owner_page.
  rewrite !ProfileView_context, Hstranger, Howner. simpl negb.
  rewrite !profile_posts_of_a_stranger, <- Hagree.
  set (S := owner_published db1 now owner).
  set (lift := fun a b : PostObj => ordering (row a) (row b)).
  assert (Hlen : forall db,
             length (order_by lift (annotate_comment_count db S)) = length public).
  { intros db. unfold public. fold S.
    now rewrite !order_by_length, annotate_comment_count_length. }
  assert (Hrows : forall db,
             map row (order_by lift (annotate_comment_count db S)) = public).
  { intros db. unfold lift, public. fold S.
    now rewrite order_by_map, map_row_annotate. }
  assert (Hown : map row (get_annotated_posts ordering db1 now
                            (Some (Post_objects_filter_author db1 owner)) false)
                 = own)
    by apply profile_posts_of_the_owner.
  assert (Hownlen : length (get_annotated_posts ordering db1 now
                              (Some (Post_objects_filter_author db1 owner)) false)
                    = length own)
    by (rewrite <- Hown; symmetry; apply length_map).
  repeat match goal with |- _ /\ _ => split end.
  - simpl. now rewrite tenth_map, Hrows, Hlen.
  - simpl. now rewrite tenth_map, Hrows, Hlen.
  - simpl. apply Forall_forall. intros o Ho. apply In_tenth in Ho.
    apply (Permutation_in _ (order_by_perm _ _)) in Ho.
    unfold annotate_comment_count in Ho. apply in_map_iff in Ho.
    destruct Ho as [p [<- _]]. reflexivity.
  - intros Hcounts.
    now rewrite (annotate_comment_count_ext db1 db2 S Hcounts).
  - simpl. intros p Hp. rewrite tenth_map, Hrows in Hp.
    apply In_tenth in Hp. unfold public in Hp.
    apply (Permutation_in _ (order_by_perm _ _)) in Hp.
    unfold owner_published in Hp. apply filter_In in Hp.
    destruct Hp as [Hin Hb]. apply andb_true_iff in Hb. tauto.
  - simpl. now rewrite tenth_map, Hown, Hownlen.
  - simpl. apply Forall_forall. intros o Ho. apply In_tenth in Ho.
    pose proof (get_annotated_posts_counts ordering db1 now
                  (Some (Post_objects_filter_author db1 owner)) false) as Hall.
    rewrite Forall_forall in Hall. apply (Hall o Ho).
  - apply order_by_perm.
  - intros p Hp.
    assert (Hin : In p own)
      by (apply (Permutation_in _ (Permutation_sym (order_by_perm _ _)));
          exact Hp).
    apply in_some_tenth in Hin. destruct Hin as [k [Hk Hin]].
    exists k. split; [exact Hk|]. split; [|exact Hin].
    apply settled_number_in_range. exact Hk.
Qed.

Lemma profile_shows_strangers_public_posts_only_witness :
  user_eq (user anonymous_get) alice = false
  /\ owner_published sample_db 10 alice = owner_published other_db 10 alice
  /\ ProfileView_get_context_data newest_first decimal_int sample_db 10
       anonymous_get alice
     = ProfileView_get_context_data newest_first decimal_int other_db 10
         anonymous_get alice
  /\ shown_rows
       (ProfileView_get_context_data newest_first decimal_int sample_db 10
          anonymous_get alice)
     = [post_public]
  /\ shown_rows
       (ProfileView_get_context_data newest_first decimal_int sample_db 10
          (mkRequest Method.GET (LoggedIn alice) [] []) alice)
     = [post_future; post_unpublished; post_public; post_hidden_category].
Proof.
  pose proof (@profile_shows_strangers_public_posts_only
                newest_first decimal_int sample_db other_db 10
                anonymous_get
                (mkRequest Method.GET (LoggedIn alice) [] [])
                alice eq_refl eq_refl eq_refl)
    as [Hshown [_ [_ [Hsame [_ [Hownshown _]]]]]].
  split; [reflexivity|]. split; [reflexivity|]. split; [|split].
  - apply Hsame. simpl. intros p [<- | []]. reflexivity.
  - exact Hshown.
  - exact Hownshown.
Defined.

(** C8 as the specification words it fails: two states with the same
    public posts of the owner, one of them without the comments, give a
    viewer who is not the owner two different profile pages, since the page
    carries the number of comments of each post. *)
Lemma same_public_posts_but_another_profile_page :
  user_eq (user anonymous_get) alice = false
  /\ owner_published sample_db 10 alice
     = owner_published sample_db_without_comments 10 alice
  /\ shown_posts
       (ProfileView_get_context_data newest_first decimal_int sample_db 10
          anonymous_get alice)
     = [mkPostObj post_public (Some 2%nat)]
  /\ shown_posts
       (ProfileView_get_context_data newest_first decimal_int
          sample_db_without_comments 10 anonymous_get alice)
     = [mkPostObj post_public (Some 0%nat)]
  /\ ProfileView_get_context_data newest_first decimal_int sample_db 10
       anonymous_get alice
     <> ProfileView_get_context_data newest_first decimal_int
          sample_db_without_comments 10 anonymous_get alice.
Proof.
  split; [reflexivity|]. split; [reflexivity|]. split; [reflexivity|].
  split; [reflexivity|].
  intros Heq. apply (f_equal shown_posts) in Heq. discriminate Heq.
Qed.

(** ** The results on the sample data *)

Lemma newest_first_total (a b : Post.t) :
  newest_first a b = true \/ newest_first b a = true.
Proof.
  unfold newest_first.
  destruct (Z.leb_spec (Post.pub_date b) (Post.pub_date a)); [now left|].
  right. apply Z.leb_le. lia.
Qed.

Lemma get_annotated_posts_filters_annotates_orders_witness :
  Permutation
    (map row (get_annotated_posts newest_first sample_db 10 None true))
    [post_public; post_of_bob]
  /\ Forall (fun o => comment_count o = Some (comments_on sample_db (row o)))
            (get_annotated_posts newest_first sample_db 10 None true).
Proof.
  destruct (@get_annotated_posts_filters_annotates_orders
              newest_first sample_db 10 None true newest_first_total)
    as [Hcounts [_ Hperm]].
  split; [exact Hperm | exact Hcounts].
Defined.

Lemma page_holds_at_most_ten_posts_witness :
  response_page (PostsListView newest_first decimal_int sample_db 10 anonymous_get)
  = Some (mkPage [mkPostObj post_of_bob (Some 1%nat);
                  mkPostObj post_public (Some 2%nat)]
                 1
                 (Paginator_10 [mkPostObj post_of_bob (Some 1%nat);
                                mkPostObj post_public (Some 2%nat)]))
  /\ (length [mkPostObj post_of_bob (Some 1%nat);
              mkPostObj post_public (Some 2%nat)] <= 10)%nat.
Proof.
  split; [reflexivity|].
  apply (@page_holds_at_most_ten_posts
           newest_first decimal_int sample_db 10 anonymous_get "travel" "alice"
           (mkPage [mkPostObj post_of_bob (Some 1%nat);
                    mkPostObj post_public (Some 2%nat)]
                   1
                   (Paginator_10 [mkPostObj post_of_bob (Some 1%nat);
                                  mkPostObj post_public (Some 2%nat)]))).
  left. reflexivity.
Defined.

Example query_builder_on_sample :
  get_annotated_posts newest_first sample_db 10 None true
  = [mkPostObj post_of_bob (Some 1%nat); mkPostObj post_public (Some 2%nat)].
Proof. reflexivity. Qed.

Example query_builder_unfiltered_on_sample :
  map (fun o => Post.pk (row o))
      (get_annotated_posts newest_first sample_db 10 None false)
  = [4; 5; 3; 1; 2].
Proof. reflexivity. Qed.

Example page_two_of_twenty_five :
  map (fun p => number p)
      (match get_page decimal_int
               (Paginator_10 (repeat (mkPostObj post_public None) 25))
               (PyStr "2") with
       | Ok page => [page]
       | Raise _ => []
       end) = [2]
  /\ last_page 25 = 3
  /\ length (tenth 3 (repeat (mkPostObj post_public None) 25)) = 5%nat.
Proof. repeat split; reflexivity. Qed.

Example list_view_rejects_a_missing_page :
  PostsListView newest_first decimal_int sample_db 10
    (mkRequest Method.GET AnonymousUser [("page", "7")] [])
  = Raise Http404.
Proof. reflexivity. Qed.

Example category_view_settles_on_the_last_page :
  response_page
    (category_posts newest_first decimal_int sample_db 10
       (mkRequest Method.GET AnonymousUser [("page", "7")] []) "travel")
  = Some (mkPage [mkPostObj post_of_bob (Some 1%nat);
                  mkPostObj post_public (Some 2%nat)]
                 1
                 (Paginator_10 [mkPostObj post_of_bob (Some 1%nat);
                                mkPostObj post_public (Some 2%nat)])).
Proof. reflexivity. Qed.

Example author_deletes_own_comment :
  CommentDeleteView sample_db (post_as bob []) 1 1
  = Ok (redirect (blog_post_detail 1), [DeleteComment comment_1])
  /\ comments (commit sample_db [DeleteComment comment_1]) = [comment_2; comment_3].
Proof. split; reflexivity. Qed.

Example anonymous_is_sent_to_login :
  add_comment sample_CommentForm_clean sample_db
    (mkRequest Method.POST AnonymousUser [] [("text", "hello")]) 1
  = Ok (redirect login, []).
Proof. reflexivity. Qed.

(** ** Further properties of the page views *)

Lemma get_annotated_posts_In (ordering : Post.t -> Post.t -> bool) (db : DB)
    (now : Z) (queryset : option (list Post.t)) (published_only : bool)
    (o : PostObj) :
  In o (get_annotated_posts ordering db now queryset published_only) ->
  In (row o) (input_posts db queryset)
  /\ (published_only = true -> is_publicb now (row o) = true)
  /\ comment_count o = Some (comments_on db (row o)).
Proof.
  intros Hin.
  pose proof (get_annotated_posts_counts ordering db now queryset published_only)
    as Hall.
  rewrite Forall_forall in Hall. specialize (Hall o Hin).
  assert (Hrow : In (row o)
                   (map row (get_annotated_posts ordering db now queryset
                               published_only)))
    by (apply in_map; exact Hin).
  rewrite get_annotated_posts_rows in Hrow.
  apply (Permutation_in _ (order_by_perm _ _)) in Hrow.
  destruct published_only.
  - apply filter_In in Hrow. tauto.
  - repeat split; [exact Hrow | discriminate | exact Hall].
Qed.

(** X1: every post on a page of the list view is a public post of the table,
    with its number of comments. *)
Theorem list_view_shows_public_posts_only :
  forall (ordering : Post.t -> Post.t -> bool) (pyint : string -> option Z)
         (db : DB) (now : Z) (request : HttpRequest) (page : Page) (o : PostObj),
    response_page (PostsListView ordering pyint db now request) = Some page ->
    In o (page_object_list page) ->
    In (row o) (posts db)
    /\ is_publicb now (row o) = true
    /\ comment_count o = Some (comments_on db (row o)).
Proof.
  intros ordering pyint db now request page o Hpage Hin.
  apply PostsListView_page in Hpage. destruct Hpage as [k [_ ->]].
  simpl in Hin. apply In_tenth in Hin.
  apply get_annotated_posts_In in Hin. simpl in Hin.
  destruct Hin as [Hrow [Hpub Hcount]]. auto.
Qed.

Lemma list_view_shows_public_posts_only_witness :
  In (row (mkPostObj post_public (Some 2%nat))) (posts sample_db)
  /\ is_publicb 10 (row (mkPostObj post_public (Some 2%nat))) = true
  /\ comment_count (mkPostObj post_public (Some 2%nat))
     = Some (comments_on sample_db (row (mkPostObj post_public (Some 2%nat)))).
Proof.
  refine (@list_view_shows_public_posts_only
            newest_first decimal_int sample_db 10 anonymous_get
            (mkPage [mkPostObj post_of_bob (Some 1%nat);
                     mkPostObj post_public (Some 2%nat)]
                    1
                    (Paginator_10 [mkPostObj post_of_bob (Some 1%nat);
                                   mkPostObj post_public (Some 2%nat)]))
            (mkPostObj post_public (Some 2%nat)) _ _).
  - reflexivity.
  - simpl. tauto.
Defined.

Lemma get_category_or_404_Ok (db : DB) (category_slug : string)
    (category : Category.t) :
  get_category_or_404 db category_slug = Ok category ->
  In category (categories db)
  /\ Category.slug category = category_slug
  /\ Category.is_published category = true.
Proof.
  unfold get_category_or_404.
  destruct (find _ (categories db)) as [c|] eqn:Hf; [|discriminate].
  intros Heq. injection Heq as <-. apply find_some in Hf.
  destruct Hf as [Hin Hb]. apply andb_true_iff in Hb. destruct Hb as [Hs Hp].
  apply String.eqb_eq in Hs. auto.
Qed.

(** X2: the category page answers [404] when no category with the slug asked
    for has its flag set: one that is missing, and one that is hidden. *)
Theorem category_page_of_hidden_category_is_404 :
  forall (ordering : Post.t -> Post.t -> bool) (pyint : string -> option Z)
         (db : DB) (now : Z) (request : HttpRequest) (category_slug : string),
    (forall c, In c (categories db) -> Category.slug c = category_slug ->
               Category.is_published c = false) ->
    category_posts ordering pyint db now request category_slug = Raise Http404.
Proof.
  intros ordering pyint db now request category_slug Hhidden.
  unfold category_posts.
  destruct (get_category_or_404 db category_slug) as [c|e] eqn:Hc.
  - apply get_category_or_404_Ok in Hc. destruct Hc as [Hin [Hs Hp]].
    rewrite (Hhidden c Hin Hs) in Hp. discriminate.
  - unfold get_category_or_404 in Hc.
    destruct (find _ (categories db)); [discriminate|].
    injection Hc as <-. reflexivity.
Qed.

Lemma category_page_of_hidden_category_is_404_witness :
  category_posts newest_first decimal_int sample_db 10 anonymous_get "drafts"
  = Raise Http404.
Proof.
  apply (@category_page_of_hidden_category_is_404
           newest_first decimal_int sample_db 10 anonymous_get "drafts").
  simpl. intros c [<- | [<- | []]] Hs; [discriminate | reflexivity].
Defined.

(** X3: every post on a category page is a public post of the table that
    belongs to the category of the page, a category whose flag is set. *)
Theorem category_page_shows_public_posts_of_the_category :
  forall (ordering : Post.t -> Post.t -> bool) (pyint : string -> option Z)
         (db : DB) (now : Z) (request : HttpRequest) (category_slug : string)
         (page : Page) (o : PostObj),
    response_page (category_posts ordering pyint db now request category_slug)
    = Some page ->
    In o (page_object_list page) ->
    exists category,
      get_category_or_404 db category_slug = Ok category
      /\ Category.is_published category = true
      /\ Category.eqb (Post.category (row o)) category = true
      /\ In (row o) (posts db)
      /\ is_publicb now (row o) = true.
Proof.
  intros ordering pyint db now request category_slug page o Hpage Hin.
  destruct (get_category_or_404 db category_slug) as [c|e] eqn:Hc.
  - rewrite (category_posts_response ordering pyint db now request _ Hc) in Hpage.
    simpl in Hpage. injection Hpage as <-. simpl in Hin.
    apply In_tenth in Hin. apply get_annotated_posts_In in Hin.
    destruct Hin as [Hrow [Hpub _]]. simpl in Hrow.
    unfold Category_posts in Hrow. apply filter_In in Hrow.
    destruct Hrow as [Hposts Hcat].
    exists c. destruct (get_category_or_404_Ok _ _ Hc) as [_ [_ Hp]].
    repeat split; auto.
  - unfold category_posts in Hpage. rewrite Hc in Hpage. discriminate.
Qed.

Lemma category_page_shows_public_posts_of_the_category_witness :
  exists category,
    get_category_or_404 sample_db "travel" = Ok category
    /\ Category.is_published category = true
    /\ Category.eqb (Post.category post_of_bob) category = true
    /\ In post_of_bob (posts sample_db)
    /\ is_publicb 10 post_of_bob = true.
Proof.
  refine (@category_page_shows_public_posts_of_the_category
            newest_first decimal_int sample_db 10 anonymous_get "travel"
            (mkPage [mkPostObj post_of_bob (Some 1%nat);
                     mkPostObj post_public (Some 2%nat)]
                    1
                    (Paginator_10 [mkPostObj post_of_bob (Some 1%nat);
                                   mkPostObj post_public (Some 2%nat)]))
            (mkPostObj post_of_bob (Some 1%nat)) _ _).
  - reflexivity.
  - simpl. tauto.
Defined.

(** X4: a post whose flag and whose category's flag are set is listed by the
    published-only query, and shown by the detail view to those who are not
    its author, from its date of publication on: at that very moment, and
    at no moment before. *)
Theorem a_scheduled_post_appears_at_its_date :
  forall (ordering : Post.t -> Post.t -> bool) (db : DB) (now : Z)
         (request : HttpRequest) (post_id : Z) (p : Post.t),
    Post_get_object db post_id = Ok p ->
    Post.is_published p = true ->
    Category.is_published (Post.category p) = true ->
    user_eq (user request) (Post.author p) = false ->
    (In p (map row (get_annotated_posts ordering db now None true))
     <-> Post.pub_date p <= now)
    /\ (PostDetailView_get_object db now request post_id = Ok p
        <-> Post.pub_date p <= now).
Proof.
  intros ordering db now request post_id p Hp Hflag Hcat Hneq.
  assert (Hpub : is_publicb now p = (Post.pub_date p <=? now)).
  { unfold is_publicb. now rewrite Hflag, Hcat. }
  destruct (get_by_pk_pk _ _ _ Hp) as [_ Hin].
  split.
  - rewrite get_annotated_posts_rows. simpl. split.
    + intros H. apply (Permutation_in _ (order_by_perm _ _)) in H.
      apply filter_In in H. destruct H as [_ H]. rewrite Hpub in H.
      now apply Z.leb_le.
    + intros H. apply (Permutation_in _ (Permutation_sym (order_by_perm _ _))).
      apply filter_In. split; [exact Hin|]. rewrite Hpub. now apply Z.leb_le.
  - rewrite (PostDetailView_get_object_eq db now request post_id Hp), Hneq, Hpub.
    destruct (Z.leb_spec (Post.pub_date p) now) as [Hle | Hgt]; split;
      intros Hshown; try reflexivity; try discriminate; lia.
Qed.

Lemma a_scheduled_post_appears_at_its_date_witness :
  (In post_future (map row (get_annotated_posts newest_first sample_db 100 None true))
   <-> Post.pub_date post_future <= 100)
  /\ (PostDetailView_get_object sample_db 99 anonymous_get 4 = Ok post_future
      <-> Post.pub_date post_future <= 99).
Proof.
  split.
  - exact (proj1 (@a_scheduled_post_appears_at_its_date
                    newest_first sample_db 100 anonymous_get 4 post_future
                    eq_refl eq_refl eq_refl eq_refl)).
  - exact (proj2 (@a_scheduled_post_appears_at_its_date
                    newest_first sample_db 99 anonymous_get 4 post_future
                    eq_refl eq_refl eq_refl eq_refl)).
Defined.

(** ** Further properties of pagination *)

Lemma Paginator_page_10_out (pyint : string -> option Z) (l : list PostObj) (k : Z) :
  k < 1 \/ last_page (length l) < k ->
  Paginator_page pyint (Paginator_10 l) (PyInt k) = Raise EmptyPage.
Proof.
  intros Hk. unfold Paginator_page, validate_number. simpl.
  rewrite num_pages_10.
  destruct (k <? 1) eqn:E1; [reflexivity|].
  destruct (k >? last_page (length l)) eqn:E2; [reflexivity|].
  apply Z.ltb_ge in E1.
  destruct (Z.gtb_spec k (last_page (length l))); [discriminate | lia].
Qed.

(** X5: asked without a page, or with an empty one, the list view renders the
    first page of the public posts; this page exists even when there is no
    post at all. *)
Theorem list_view_renders_first_page_by_default :
  forall (ordering : Post.t -> Post.t -> bool) (pyint : string -> option Z)
         (db : DB) (now : Z) (request : HttpRequest),
    method request = Method.GET ->
    QueryDict_get "page" (GET request) = None
    \/ QueryDict_get "page" (GET request) = Some "" ->
    let all_public := get_annotated_posts ordering db now None true in
    PostsListView ordering pyint db now request
    = Ok (render "blog/index.html"
            (ListContext (mkPage (tenth 1 all_public) 1 (Paginator_10 all_public)))).
Proof.
  intros ordering pyint db now request Hm Hq all_public.
  unfold PostsListView, PostsListView_get_queryset, PostsListView_paginate_by,
    paginate_queryset.
  fold all_public. rewrite Hm.
  change (mkPaginator all_public 10 0 true) with (Paginator_10 all_public).
  assert (H1 : Paginator_page pyint (Paginator_10 all_public) (PyInt 1)
               = Ok (mkPage (tenth 1 all_public) 1 (Paginator_10 all_public))).
  { apply Paginator_page_10. pose proof (last_page_pos (length all_public)). lia. }
  destruct Hq as [-> | ->]; simpl; rewrite H1; reflexivity.
Qed.

Lemma list_view_renders_first_page_by_default_witness :
  PostsListView newest_first decimal_int (mkDB [] [] [] []) 10 anonymous_get
  = Ok (render "blog/index.html"
          (ListContext (mkPage [] 1 (Paginator_10 [])))).
Proof.
  apply (@list_view_renders_first_page_by_default
           newest_first decimal_int (mkDB [] [] [] []) 10 anonymous_get).
  - reflexivity.
  - left. reflexivity.
Defined.

(** X6: asked for a page that does not exist, the list view answers [404]: a
    number below one or beyond the last page, or a text that is neither a
    number nor [last]. *)
Theorem list_view_missing_page_is_404 :
  forall (ordering : Post.t -> Post.t -> bool) (pyint : string -> option Z)
         (db : DB) (now : Z) (request : HttpRequest) (s : string),
    method request = Method.GET ->
    QueryDict_get "page" (GET request) = Some s ->
    s <> "" ->
    match pyint s with
    | Some k =>
        k < 1
        \/ last_page (length (get_annotated_posts ordering db now None true)) < k
    | None => s <> "last"
    end ->
    PostsListView ordering pyint db now request = Raise Http404.
Proof.
  intros ordering pyint db now request s Hm Hq Hs Hbad.
  unfold PostsListView, PostsListView_get_queryset, PostsListView_paginate_by,
    paginate_queryset.
  rewrite Hm, Hq.
  change (mkPaginator (get_annotated_posts ordering db now None true) 10 0 true)
    with (Paginator_10 (get_annotated_posts ordering db now None true)).
  apply String.eqb_neq in Hs. rewrite Hs.
  destruct (pyint s) as [k|].
  - simpl. rewrite (Paginator_page_10_out pyint _ Hbad). reflexivity.
  - apply String.eqb_neq in Hbad. rewrite Hbad. reflexivity.
Qed.

Lemma list_view_missing_page_is_404_witness :
  PostsListView newest_first decimal_int sample_db 10
    (get_page_request AnonymousUser "2")
  = Raise Http404
  /\ PostsListView newest_first decimal_int sample_db 10
       (get_page_request AnonymousUser "two")
     = Raise Http404.
Proof.
  split.
  - apply (@list_view_missing_page_is_404
             newest_first decimal_int sample_db 10
             (get_page_request AnonymousUser "2") "2");
      try reflexivity; [discriminate | right; reflexivity].
  - apply (@list_view_missing_page_is_404
             newest_first decimal_int sample_db 10
             (get_page_request AnonymousUser "two") "two");
      try reflexivity; discriminate.
Defined.

(** Asked for [last], the list view renders the last page. *)
Theorem list_view_renders_last_page :
  forall (ordering : Post.t -> Post.t -> bool) (pyint : string -> option Z)
         (db : DB) (now : Z) (request : HttpRequest),
    method request = Method.GET ->
    QueryDict_get "page" (GET request) = Some "last" ->
    pyint "last" = None ->
    let all_public := get_annotated_posts ordering db now None true in
    PostsListView ordering pyint db now request
    = Ok (render "blog/index.html"
            (ListContext
               (mkPage (tenth (last_page (length all_public)) all_public)
                       (last_page (length all_public))
                       (Paginator_10 all_public)))).
Proof.
  intros ordering pyint db now request Hm Hq Hint all_public.
  unfold PostsListView, PostsListView_get_queryset, PostsListView_paginate_by,
    paginate_queryset.
  fold all_public. rewrite Hm, Hq.
  change (mkPaginator all_public 10 0 true) with (Paginator_10 all_public).
  simpl. rewrite Hint. simpl. rewrite num_pages_10.
  rewrite Paginator_page_10; [reflexivity|].
  pose proof (last_page_pos (length all_public)). lia.
Qed.

Lemma list_view_renders_last_page_witness :
  response_page
    (PostsListView newest_first decimal_int sample_db 10
       (get_page_request AnonymousUser "last"))
  = Some (mkPage [mkPostObj post_of_bob (Some 1%nat);
                  mkPostObj post_public (Some 2%nat)]
                 1
                 (Paginator_10 [mkPostObj post_of_bob (Some 1%nat);
                                mkPostObj post_public (Some 2%nat)])).
Proof.
  rewrite (@list_view_renders_last_page
             newest_first decimal_int sample_db 10
             (get_page_request AnonymousUser "last") eq_refl eq_refl eq_refl).
  reflexivity.
Defined.




Lemma firstn_add (A : Type) (a b : nat) (l : list A) :
  firstn (a + b) l = (firstn a l ++ firstn b (skipn a l))%list.
Proof.
  revert l. induction a as [|a IH]; intros l; simpl; [reflexivity|].
  destruct l as [|x l]; simpl.
  - now rewrite firstn_nil.
  - now rewrite IH.
Qed.

Lemma concat_tenths (A : Type) (l : list A) (m : nat) :
  concat (map (fun k => tenth (Z.of_nat k) l) (seq 1 m)) = firstn (10 * m) l.
Proof.
  induction m as [|m IH].
  - simpl. reflexivity.
  - rewrite seq_S, map_app, concat_app, IH. cbn [map concat].
    rewrite app_nil_r. unfold tenth.
    replace (Z.to_nat (10 * (Z.of_nat (1 + m) - 1))) with (10 * m)%nat by lia.
    rewrite <- firstn_add. f_equal. lia.
Qed.

Lemma tenth_full (A : Type) (l : list A) (k : Z) :
  1 <= k < last_page (length l) -> length (tenth k l) = 10%nat.
Proof.
  intros [H1 H2]. unfold tenth. rewrite length_firstn, length_skipn.
  unfold last_page in H2.
  pose proof (Z.mul_div_le (Z.max 1 (Z.of_nat (length l)) + 9) 10 ltac:(lia))
    as Hdiv.
  lia.
Qed.

(** X8: the pages of ten that [Paginator(posts, 10)] hands out, taken first to
    last, are the posts in their order: no post is lost, none shown twice.
    Each of these pages is delivered when asked for by number, and every
    page before the last holds exactly ten posts. *)
Theorem pages_of_ten_partition_the_posts :
  forall (pyint : string -> option Z) (posts : list PostObj),
    concat (pages_of posts) = posts
    /\ (forall k,
          1 <= k <= last_page (length posts) ->
          Paginator_page pyint (Paginator_10 posts) (PyInt k)
          = Ok (mkPage (tenth k posts) k (Paginator_10 posts))
          /\ nth_error (pages_of posts) (Z.to_nat (k - 1)) = Some (tenth k posts)
          /\ (k < last_page (length posts) -> length (tenth k posts) = 10%nat)).
Proof.
  intros pyint posts. split.
  - unfold pages_of. rewrite concat_tenths. apply firstn_all2.
    pose proof (last_page_pos (length posts)) as Hpos.
    assert (Z.of_nat (length posts) <= 10 * last_page (length posts)).
    { unfold last_page.
      pose proof (Z.mul_succ_div_gt (Z.max 1 (Z.of_nat (length posts)) + 9) 10
                    ltac:(lia)). lia. }
    lia.
  - intros k Hk. split; [apply Paginator_page_10; exact Hk|]. split.
    + unfold pages_of.
      rewrite nth_error_map, nth_error_seq.
      destruct (Nat.ltb_spec (Z.to_nat (k - 1))
                             (Z.to_nat (last_page (length posts)))) as [_|Hge];
        [|lia].
      simpl. f_equal. f_equal. lia.
    + intros Hlt. apply tenth_full. lia.
Qed.

Lemma pages_of_ten_partition_the_posts_witness :
  length (tenth 2 (repeat (mkPostObj post_public None) 25)) = 10%nat.
Proof.
  refine (proj2 (proj2 (proj2 (@pages_of_ten_partition_the_posts
                                 decimal_int
                                 (repeat (mkPostObj post_public None) 25))
                                2 _)) _); vm_compute; intuition discriminate.
Defined.

(** ** Tables: lookup after a write *)

Lemma find_snoc (A : Type) (f : A -> bool) (l : list A) (x : A) :
  find f (l ++ [x])
  = match find f l with
    | Some y => Some y
    | None => if f x then Some x else None
    end.
Proof.
  induction l as [|y l IH]; simpl; [reflexivity|].
  destruct (f y); [reflexivity | exact IH].
Qed.

Lemma find_pk_none (A : Type) (pk_of : A -> Z) (l : list A) (k : Z) :
  ~ In k (map pk_of l) -> find (fun o => pk_of o =? k) l = None.
Proof.
  intros Hk. destruct (find _ l) as [y|] eqn:Hf; [|reflexivity].
  apply find_some in Hf. destruct Hf as [Hin Hpk]. apply Z.eqb_eq in Hpk.
  exfalso. apply Hk. rewrite <- Hpk. apply in_map. exact Hin.
Qed.

Lemma find_delete_row (A : Type) (pk_of : A -> Z) (x : A) (l : list A) (k : Z) :
  find (fun o => pk_of o =? k) (delete_row pk_of x l)
  = if k =? pk_of x then None else find (fun o => pk_of o =? k) l.
Proof.
  unfold delete_row. induction l as [|y l IH]; simpl.
  - destruct (k =? pk_of x); reflexivity.
  - destruct (Z.eqb_spec (pk_of y) (pk_of x)) as [Hyx|Hyx]; simpl.
    + rewrite IH. destruct (Z.eqb_spec k (pk_of x)) as [Hk|Hk]; [reflexivity|].
      destruct (Z.eqb_spec (pk_of y) k); [congruence | reflexivity].
    + destruct (Z.eqb_spec (pk_of y) k) as [Hyk|Hyk].
      * destruct (Z.eqb_spec k (pk_of x)); [congruence | reflexivity].
      * exact IH.
Qed.

Lemma find_save_row (A : Type) (pk_of : A -> Z) (x : A) (l : list A) (k : Z) :
  In (pk_of x) (map pk_of l) ->
  find (fun o => pk_of o =? k) (save_row pk_of x l)
  = if k =? pk_of x then Some x else find (fun o => pk_of o =? k) l.
Proof.
  intros Hin. unfold save_row.
  assert (Hex : existsb (fun y => pk_of y =? pk_of x) l = true).
  { apply existsb_exists. apply in_map_iff in Hin.
    destruct Hin as [y [Hy Hin]]. exists y. split; [exact Hin|].
    now apply Z.eqb_eq. }
  rewrite Hex. clear Hex.
  induction l as [|y l IH]; simpl in *; [tauto|].
  destruct (Z.eqb_spec (pk_of y) (pk_of x)) as [Hyx|Hyx].
  - destruct (Z.eqb_spec (pk_of x) k) as [Hxk|Hxk].
    + destruct (Z.eqb_spec k (pk_of x)); [reflexivity | congruence].
    + destruct (Z.eqb_spec k (pk_of x)) as [Hkx|Hkx]; [congruence|].
      destruct (Z.eqb_spec (pk_of y) k) as [Hyk|_]; [congruence|].
      clear IH Hin. induction l as [|z l IHl]; simpl; [reflexivity|].
      destruct (Z.eqb_spec (pk_of z) (pk_of x)) as [Hzx|Hzx].
      * destruct (Z.eqb_spec (pk_of x) k); [congruence|].
        destruct (Z.eqb_spec (pk_of z) k); [congruence | exact IHl].
      * destruct (Z.eqb_spec (pk_of z) k); [reflexivity | exact IHl].
  - destruct Hin as [Hin | Hin]; [congruence|].
    destruct (Z.eqb_spec (pk_of y) k) as [Hyk|Hyk].
    + destruct (Z.eqb_spec k (pk_of x)); [congruence | reflexivity].
    + apply IH. exact Hin.
Qed.

Lemma get_by_pk_in (A : Type) (pk_of : A -> Z) (l : list A) (k : Z) (o : A) :
  get_by_pk pk_of l k = Ok o -> In (pk_of o) (map pk_of l).
Proof.
  intros H. apply in_map. apply (get_by_pk_pk _ _ _ H).
Qed.

(** ** Further properties of the views that write *)

Section FurtherWritingViews.
Variable PostForm_clean : QueryDict -> option PostDraft.
Variable PostForm_update : QueryDict -> Post.t -> option Post.t.
Variable CommentForm_clean : QueryDict -> option string.
Variable CommentForm_update : QueryDict -> Comment.t -> option Comment.t.

(** X9: a request that is read only, [GET] with no form data, makes none of the
    six views write: they show a form, redirect or refuse. *)
Theorem a_get_request_writes_nothing :
  forall (v : MutationView) (db : DB) (now : Z) (request : HttpRequest)
         (kwargs : Kwargs),
    method request = Method.GET ->
    POST request = [] ->
    writes_of (run PostForm_clean PostForm_update CommentForm_clean
                   CommentForm_update v db now request kwargs) = [].
Proof.
  intros v db now request kwargs Hm Hp.
  destruct v; unfold_writing_views;
    unfold POST_or_None, Post_get_object, Comment_get_object, get_by_pk, bind;
    rewrite ?Hm, ?Hp;
    repeat (simpl; break_innermost_match); reflexivity.
Qed.

(** X10: an anonymous visitor makes none of the six views write.  The views that
    create send the visitor to the login page; the views under [EditMixin]
    redirect to the post named in the path, even when the object asked for
    does not exist; [CommentUpdateView] answers [403] for a comment that
    exists and [404] for one that does not. *)
Theorem an_anonymous_visitor_is_turned_away :
  forall (v : MutationView) (db : DB) (now : Z) (request : HttpRequest)
         (kwargs : Kwargs),
    user request = AnonymousUser ->
    let outcome := run PostForm_clean PostForm_update CommentForm_clean
                       CommentForm_update v db now request kwargs in
    writes_of outcome = []
    /\ response_of outcome
       = match v with
         | PostCreate | AddComment => HttpResponseRedirect login
         | PostUpdate | PostDelete | CommentDelete =>
             HttpResponseRedirect (blog_post_detail (kw_post_id kwargs))
         | CommentUpdate =>
             match Comment_get_object db (kw_comment_id kwargs) with
             | Ok _ => HttpResponseForbidden
             | Raise _ => HttpResponseNotFound
             end
         end.
Proof.
  intros v db now request kwargs Hu outcome. unfold outcome.
  destruct v; unfold_writing_views; rewrite ?Hu; simpl;
    try (split; reflexivity).
  unfold Comment_get_object, get_by_pk.
  destruct (find _ (comments db)); simpl; split; reflexivity.
Qed.

(** X11: a logged-in user who asks to change or to comment on something that
    does not exist gets [404], and nothing is written. *)
Theorem a_missing_object_is_404 :
  forall (v : MutationView) (db : DB) (now : Z) (request : HttpRequest)
         (kwargs : Kwargs) (u : User.t),
    user request = LoggedIn u ->
    v <> PostCreate ->
    match v with
    | PostCreate => True
    | PostUpdate | PostDelete | AddComment =>
        Post_get_object db (kw_post_id kwargs) = Raise Http404
    | CommentUpdate | CommentDelete =>
        Comment_get_object db (kw_comment_id kwargs) = Raise Http404
    end ->
    run PostForm_clean PostForm_update CommentForm_clean CommentForm_update
        v db now request kwargs
    = Raise Http404.
Proof.
  intros v db now request kwargs u Hu Hv Hmissing.
  destruct v; try congruence; unfold_writing_views;
    unfold Post_get_object, Comment_get_object in *;
    rewrite ?Hu, ?Hmissing; reflexivity.
Qed.

(** X12: when the forms reject what was submitted, no view but the two that
    delete writes anything. *)
Theorem a_rejected_form_writes_nothing :
  forall (v : MutationView) (db : DB) (now : Z) (request : HttpRequest)
         (kwargs : Kwargs),
    PostForm_clean (POST request) = None ->
    (forall p, PostForm_update (POST request) p = None) ->
    CommentForm_clean (POST request) = None ->
    (forall c, CommentForm_update (POST request) c = None) ->
    v <> PostDelete ->
    v <> CommentDelete ->
    writes_of (run PostForm_clean PostForm_update CommentForm_clean
                   CommentForm_update v db now request kwargs) = [].
Proof.
  intros v db now request kwargs Hpc Hpu Hcc Hcu Hpd Hcd.
  destruct v; try congruence; unfold_writing_views;
    unfold POST_or_None, Post_get_object, Comment_get_object, get_by_pk, bind;
    repeat (simpl; rewrite ?Hpc, ?Hpu, ?Hcc, ?Hcu; break_innermost_match);
    simpl; rewrite ?Hpc, ?Hpu, ?Hcc, ?Hcu in *; try reflexivity;
    try discriminate.
Qed.

End FurtherWritingViews.

Lemma a_get_request_writes_nothing_witness :
  writes_of (run sample_PostForm_clean sample_PostForm_update
                 sample_CommentForm_clean sample_CommentForm_update
                 PostDelete sample_db 10
                 (mkRequest Method.GET (LoggedIn alice) [] []) (mkKwargs 1 0))
  = [].
Proof.
  apply (@a_get_request_writes_nothing
           sample_PostForm_clean sample_PostForm_update
           sample_CommentForm_clean sample_CommentForm_update
           PostDelete sample_db 10
           (mkRequest Method.GET (LoggedIn alice) [] []) (mkKwargs 1 0));
    reflexivity.
Defined.

Lemma an_anonymous_visitor_is_turned_away_witness :
  response_of (run sample_PostForm_clean sample_PostForm_update
                   sample_CommentForm_clean sample_CommentForm_update
                   PostDelete sample_db 10
                   (mkRequest Method.POST AnonymousUser [] []) (mkKwargs 77 0))
  = HttpResponseRedirect (blog_post_detail 77).
Proof.
  exact (proj2 (@an_anonymous_visitor_is_turned_away
                  sample_PostForm_clean sample_PostForm_update
                  sample_CommentForm_clean sample_CommentForm_update
                  PostDelete sample_db 10
                  (mkRequest Method.POST AnonymousUser [] []) (mkKwargs 77 0)
                  eq_refl)).
Defined.

Lemma a_missing_object_is_404_witness :
  run sample_PostForm_clean sample_PostForm_update
      sample_CommentForm_clean sample_CommentForm_update
      AddComment sample_db 10 (post_as bob [("text", "hello")]) (mkKwargs 77 0)
  = Raise Http404.
Proof.
  apply (@a_missing_object_is_404
           sample_PostForm_clean sample_PostForm_update
           sample_CommentForm_clean sample_CommentForm_update
           AddComment sample_db 10 (post_as bob [("text", "hello")])
           (mkKwargs 77 0) bob); [reflexivity | discriminate | reflexivity].
Defined.

Lemma a_rejected_form_writes_nothing_witness :
  writes_of (run sample_PostForm_clean sample_PostForm_update
                 sample_CommentForm_clean sample_CommentForm_update
                 PostUpdate sample_db 10 (post_as alice [("title", "x")])
                 (mkKwargs 1 0))
  = [].
Proof.
  apply (@a_rejected_form_writes_nothing
           sample_PostForm_clean sample_PostForm_update
           sample_CommentForm_clean sample_CommentForm_update
           PostUpdate sample_db 10 (post_as alice [("title", "x")])
           (mkKwargs 1 0)); try reflexivity; discriminate.
Defined.

(** ** Writing and reading back *)

(** X13: a logged-in user who submits a valid post form creates one post: its
    author is that user, whatever was submitted, and its date is the one of
    the form or, when the form leaves it out, the time of the request.  The
    answer redirects to the profile of the user; the new post can then be
    fetched under its key, and it is among the posts that profile lists for
    its owner. *)
Theorem a_valid_post_form_creates_the_users_post :
  forall (ordering : Post.t -> Post.t -> bool)
         (PostForm_clean : QueryDict -> option PostDraft)
         (db : DB) (now later : Z) (request : HttpRequest) (u : User.t)
         (form : PostDraft),
    user request = LoggedIn u ->
    method request = Method.POST ->
    PostForm_clean (POST request) = Some form ->
    let pub_date := match draft_pub_date form with Some d => d | None => now end in
    let new := inserted_post db (draft_is_published form) pub_date u
                 (draft_category form) (draft_location form) in
    let outcome := PostCreateView PostForm_clean now request in
    let db' := commit db (writes_of outcome) in
    outcome
    = Ok (redirect (blog_profile (User.username u)),
          [InsertPost (draft_is_published form) pub_date u
                      (draft_category form) (draft_location form)])
    /\ posts db' = (posts db ++ [new])%list
    /\ Post.author new = u
    /\ Post_get_object db' (Post.pk new) = Ok new
    /\ In new (map row (get_annotated_posts ordering db' later
                          (Some (Post_objects_filter_author db' u)) false)).
Proof.
  intros ordering PostForm_clean db now later request u form Hu Hm Hform
         pub_date new outcome db'.
  assert (Hout : outcome
                 = Ok (redirect (blog_profile (User.username u)),
                       [InsertPost (draft_is_published form) pub_date u
                                   (draft_category form) (draft_location form)])).
  { unfold outcome. unfold_writing_views. rewrite Hu, Hm, Hform. reflexivity. }
  assert (Hposts : posts db' = (posts db ++ [new])%list).
  { unfold db'. rewrite Hout. reflexivity. }
  split; [exact Hout|]. split; [exact Hposts|]. split; [reflexivity|]. split.
  - unfold Post_get_object, get_by_pk, Post_objects_all. rewrite Hposts, find_snoc.
    rewrite (find_pk_none Post.pk (posts db)) by apply next_pk_fresh.
    unfold new, inserted_post. simpl. now rewrite Z.eqb_refl.
  - rewrite get_annotated_posts_rows. simpl.
    apply (Permutation_in _ (Permutation_sym (order_by_perm _ _))).
    unfold Post_objects_filter_author. apply filter_In. split.
    + rewrite Hposts. apply in_or_app. right. simpl. tauto.
    + unfold new, inserted_post, User.eqb. simpl. apply Z.eqb_refl.
Qed.

Lemma a_valid_post_form_creates_the_users_post_witness :
  PostCreateView sample_PostForm_clean 42 (post_as bob [("is_published", "on")])
  = Ok (redirect (blog_profile "bob"), [InsertPost true 42 bob travel 0])
  /\ Post_get_object
       (commit sample_db [InsertPost true 42 bob travel 0]) 6
     = Ok (Post.mk 6 true 42 bob travel 0).
Proof.
  pose proof (@a_valid_post_form_creates_the_users_post
                newest_first sample_PostForm_clean sample_db 42 50
                (post_as bob [("is_published", "on")]) bob
                (mkPostDraft true None travel 0) eq_refl eq_refl eq_refl)
    as [Hout [_ [_ [Hget _]]]].
  split; [exact Hout | exact Hget].
Defined.

(** X14: the author who submits a valid form to [PostUpdateView] saves the post
    as the form returns it and is redirected to the list.  When the form
    leaves the key alone, the post is afterwards fetched as saved, and every
    other post is fetched as before. *)
Theorem the_author_updates_the_post :
  forall (PostForm_update : QueryDict -> Post.t -> option Post.t)
         (db : DB) (request : HttpRequest) (post_id : Z) (post post' : Post.t),
    Post_get_object db post_id = Ok post ->
    user_eq (user request) (Post.author post) = true ->
    method request = Method.POST ->
    PostForm_update (POST request) post = Some post' ->
    Post.pk post' = Post.pk post ->
    let outcome := PostUpdateView PostForm_update db request post_id in
    let db' := commit db (writes_of outcome) in
    outcome = Ok (redirect blog_index, [SavePost post'])
    /\ Post_get_object db' post_id = Ok post'
    /\ (forall k, k <> post_id -> Post_get_object db' k = Post_get_object db k)
    /\ comments db' = comments db.
Proof.
  intros PostForm_update db request post_id post post' Hpost Hauthor Hm Hform
         Hpk outcome db'.
  destruct (get_by_pk_pk _ _ _ Hpost) as [Hid _].
  assert (Hout : outcome = Ok (redirect blog_index, [SavePost post'])).
  { unfold outcome, PostUpdateView, PostUpdateView_dispatch.
    rewrite Hpost, EditMixin_dispatch_eq. unfold author_of, Post_Authored.
    rewrite Hauthor. unfold PostUpdateView_handler. rewrite Hpost. simpl.
    rewrite Hm, Hform. reflexivity. }
  assert (Hfind : forall k,
             find (fun o => Post.pk o =? k) (posts db')
             = if k =? Post.pk post' then Some post'
               else find (fun o => Post.pk o =? k) (posts db)).
  { intros k. unfold db'. rewrite Hout. simpl. apply find_save_row.
    rewrite Hpk. apply (get_by_pk_in _ _ _ Hpost). }
  split; [exact Hout|]. split; [|split].
  - unfold Post_get_object, get_by_pk, Post_objects_all. rewrite Hfind.
    rewrite Hpk, Hid, Z.eqb_refl. reflexivity.
  - intros k Hk. unfold Post_get_object, get_by_pk, Post_objects_all.
    rewrite Hfind, Hpk, Hid.
    destruct (Z.eqb_spec k post_id); [contradiction | reflexivity].
  - unfold db'. rewrite Hout. reflexivity.
Qed.

Lemma the_author_updates_the_post_witness :
  PostUpdateView sample_PostForm_update sample_db
    (post_as alice [("is_published", "off")]) 1
  = Ok (redirect blog_index, [SavePost (Post.mk 1 false 5 alice travel 0)])
  /\ Post_get_object
       (commit sample_db [SavePost (Post.mk 1 false 5 alice travel 0)]) 1
     = Ok (Post.mk 1 false 5 alice travel 0).
Proof.
  pose proof (@the_author_updates_the_post
                sample_PostForm_update sample_db
                (post_as alice [("is_published", "off")]) 1 post_public
                (Post.mk 1 false 5 alice travel 0)
                eq_refl eq_refl eq_refl eq_refl eq_refl)
    as [Hout [Hget _]].
  split; [exact Hout | exact Hget].
Defined.

(** X15: the author who posts to [PostDeleteView], with any data, deletes the
    post and is redirected to the list.  Afterwards the key of the post
    finds nothing, no listing of the query builder holds a post with that
    key, and every other post is fetched as before. *)
Theorem the_author_deletes_the_post :
  forall (ordering : Post.t -> Post.t -> bool) (db : DB) (now : Z)
         (request : HttpRequest) (post_id : Z) (post : Post.t),
    Post_get_object db post_id = Ok post ->
    user_eq (user request) (Post.author post) = true ->
    method request = Method.POST ->
    let outcome := PostDeleteView db request post_id in
    let db' := commit db (writes_of outcome) in
    outcome = Ok (redirect blog_index, [DeletePost post])
    /\ Post_get_object db' post_id = Raise Http404
    /\ (forall k, k <> post_id -> Post_get_object db' k = Post_get_object db k)
    /\ (forall published_only o,
          In o (get_annotated_posts ordering db' now None published_only) ->
          Post.pk (row o) <> post_id).
Proof.
  intros ordering db now request post_id post Hpost Hauthor Hm outcome db'.
  destruct (get_by_pk_pk _ _ _ Hpost) as [Hid _].
  assert (Hout : outcome = Ok (redirect blog_index, [DeletePost post])).
  { unfold outcome, PostDeleteView, PostDeleteView_dispatch.
    rewrite Hpost, EditMixin_dispatch_eq. unfold author_of, Post_Authored.
    rewrite Hauthor. unfold PostDeleteView_handler. rewrite Hpost. simpl.
    rewrite Hm. reflexivity. }
  assert (Hposts : posts db' = delete_row Post.pk post (posts db)).
  { unfold db'. rewrite Hout. reflexivity. }
  split; [exact Hout|]. split; [|split].
  - unfold Post_get_object, get_by_pk, Post_objects_all.
    rewrite Hposts, find_delete_row, Hid, Z.eqb_refl. reflexivity.
  - intros k Hk. unfold Post_get_object, get_by_pk, Post_objects_all.
    rewrite Hposts, find_delete_row, Hid.
    destruct (Z.eqb_spec k post_id); [contradiction | reflexivity].
  - intros published_only o Hin Heq.
    apply get_annotated_posts_In in Hin. destruct Hin as [Hin _].
    simpl in Hin. rewrite Hposts in Hin. unfold delete_row in Hin.
    apply filter_In in Hin. destruct Hin as [_ Hne].
    rewrite Hid, Heq, Z.eqb_refl in Hne. discriminate.
Qed.

Lemma the_author_deletes_the_post_witness :
  PostDeleteView sample_db (post_as alice []) 1
  = Ok (redirect blog_index, [DeletePost post_public])
  /\ Post_get_object (commit sample_db [DeletePost post_public]) 1
     = Raise Http404.
Proof.
  pose proof (@the_author_deletes_the_post
                newest_first sample_db 10 (post_as alice []) 1 post_public
                eq_refl eq_refl eq_refl)
    as [Hout [Hget _]].
  split; [exact Hout | exact Hget].
Defined.

Lemma NoDup_map_inj (A B : Type) (f : A -> B) (l : list A) (a b : A) :
  NoDup (map f l) -> In a l -> In b l -> f a = f b -> a = b.
Proof.
  induction l as [|x l IH]; simpl; [tauto|].
  intros Hnd Ha Hb Hf. inversion Hnd as [|? ? Hnotin Hnd']; subst.
  destruct Ha as [<- | Ha]; destruct Hb as [<- | Hb].
  - reflexivity.
  - exfalso. apply Hnotin. rewrite Hf. now apply in_map.
  - exfalso. apply Hnotin. rewrite <- Hf. now apply in_map.
  - now apply IH.
Qed.

(** X16: the author who posts to [CommentDeleteView] deletes the comment found
    under [comment_id], whatever post the path names, and is redirected to
    the post the comment belongs to.  Afterwards the key of the comment
    finds nothing and the posts are as before; with keys that name one
    comment each, the comments on every other post are as before too. *)
Theorem the_author_deletes_the_comment :
  forall (db : DB) (request : HttpRequest) (post_id comment_id : Z)
         (comment : Comment.t),
    Comment_get_object db comment_id = Ok comment ->
    user_eq (user request) (Comment.author comment) = true ->
    method request = Method.POST ->
    let outcome := CommentDeleteView db request post_id comment_id in
    let db' := commit db (writes_of outcome) in
    outcome
    = Ok (redirect (blog_post_detail (Comment.post_id comment)),
          [DeleteComment comment])
    /\ Comment_get_object db' comment_id = Raise Http404
    /\ posts db' = posts db
    /\ (NoDup (map Comment.pk (comments db)) ->
        forall q, Post.pk q <> Comment.post_id comment ->
                  Post_comments db' q = Post_comments db q).
Proof.
  intros db request post_id comment_id comment Hc Hauthor Hm outcome db'.
  destruct (get_by_pk_pk _ _ _ Hc) as [Hid Hincomment].
  assert (Hout : outcome
                 = Ok (redirect (blog_post_detail (Comment.post_id comment)),
                       [DeleteComment comment])).
  { unfold outcome, CommentDeleteView, CommentDeleteView_dispatch.
    rewrite Hc, EditMixin_dispatch_eq. unfold author_of, Comment_Authored.
    rewrite Hauthor. unfold CommentDeleteView_handler. rewrite Hc. simpl.
    rewrite Hm. reflexivity. }
  assert (Hcomments : comments db' = delete_row Comment.pk comment (comments db)).
  { unfold db'. rewrite Hout. reflexivity. }
  split; [exact Hout|]. split; [|split].
  - unfold Comment_get_object, get_by_pk.
    rewrite Hcomments, find_delete_row, Hid, Z.eqb_refl. reflexivity.
  - unfold db'. rewrite Hout. reflexivity.
  - intros Hnd q Hq. unfold Post_comments. rewrite Hcomments. unfold delete_row.
    rewrite filter_filter. apply filter_ext_in. intros c Hin.
    destruct (Z.eqb_spec (Comment.post_id c) (Post.pk q)) as [Hcq|Hcq];
      [|apply andb_false_r].
    rewrite andb_true_r.
    destruct (Z.eqb_spec (Comment.pk c) (Comment.pk comment)) as [Hpk|Hpk];
      [|reflexivity].
    exfalso. apply Hq.
    rewrite <- (NoDup_map_inj Comment.pk (comments db) c comment Hnd Hin
                  Hincomment Hpk).
    symmetry. exact Hcq.
Qed.

Lemma the_author_deletes_the_comment_witness :
  CommentDeleteView sample_db (post_as bob []) 77 1
  = Ok (redirect (blog_post_detail 1), [DeleteComment comment_1])
  /\ Comment_get_object (commit sample_db [DeleteComment comment_1]) 1
     = Raise Http404
  /\ Post_comments (commit sample_db [DeleteComment comment_1]) post_of_bob
     = Post_comments sample_db post_of_bob.
Proof.
  assert (Hnd : NoDup (map Comment.pk (comments sample_db))).
  { simpl. repeat constructor; simpl; intuition discriminate. }
  pose proof (@the_author_deletes_the_comment
                sample_db (post_as bob []) 77 1 comment_1
                eq_refl eq_refl eq_refl)
    as [Hout [Hget [_ Hothers]]].
  split; [exact Hout|]. split; [exact Hget|].
  apply (Hothers Hnd post_of_bob). discriminate.
Defined.

(** X17: the author who submits a valid form to [CommentUpdateView] saves the
    comment as the form returns it and is redirected to the post of the
    saved comment.  When the form leaves the key alone, the comment is
    afterwards fetched as saved, every other comment as before. *)
Theorem the_author_updates_the_comment :
  forall (CommentForm_update : QueryDict -> Comment.t -> option Comment.t)
         (db : DB) (request : HttpRequest) (comment_id : Z)
         (comment comment' : Comment.t),
    Comment_get_object db comment_id = Ok comment ->
    user_eq (user request) (Comment.author comment) = true ->
    method request = Method.POST ->
    CommentForm_update (POST request) comment = Some comment' ->
    Comment.pk comment' = Comment.pk comment ->
    let outcome := CommentUpdateView CommentForm_update db request comment_id in
    let db' := commit db (writes_of outcome) in
    outcome
    = Ok (redirect (blog_post_detail (Comment.post_id comment')),
          [SaveComment comment'])
    /\ Comment_get_object db' comment_id = Ok comment'
    /\ (forall k, k <> comment_id ->
                  Comment_get_object db' k = Comment_get_object db k)
    /\ posts db' = posts db.
Proof.
  intros CommentForm_update db request comment_id comment comment' Hc Hauthor
         Hm Hform Hpk outcome db'.
  destruct (get_by_pk_pk _ _ _ Hc) as [Hid _].
  assert (Hout : outcome
                 = Ok (redirect (blog_post_detail (Comment.post_id comment')),
                       [SaveComment comment'])).
  { unfold outcome, CommentUpdateView.
    rewrite (CommentUpdateView_dispatch_eq db request _ _ Hc), Hauthor.
    unfold CommentUpdateView_handler. rewrite Hc. simpl.
    rewrite Hm, Hform. reflexivity. }
  assert (Hfind : forall k,
             find (fun o => Comment.pk o =? k) (comments db')
             = if k =? Comment.pk comment' then Some comment'
               else find (fun o => Comment.pk o =? k) (comments db)).
  { intros k. unfold db'. rewrite Hout. simpl. apply find_save_row.
    rewrite Hpk. apply (get_by_pk_in _ _ _ Hc). }
  split; [exact Hout|]. split; [|split].
  - unfold Comment_get_object, get_by_pk. rewrite Hfind.
    rewrite Hpk, Hid, Z.eqb_refl. reflexivity.
  - intros k Hk. unfold Comment_get_object, get_by_pk.
    rewrite Hfind, Hpk, Hid.
    destruct (Z.eqb_spec k comment_id); [contradiction | reflexivity].
  - unfold db'. rewrite Hout. reflexivity.
Qed.

Lemma the_author_updates_the_comment_witness :
  CommentUpdateView sample_CommentForm_update sample_db
    (post_as bob [("text", "edited")]) 1
  = Ok (redirect (blog_post_detail 1), [SaveComment (Comment.mk 1 bob 1 "edited")])
  /\ Comment_get_object
       (commit sample_db [SaveComment (Comment.mk 1 bob 1 "edited")]) 1
     = Ok (Comment.mk 1 bob 1 "edited").
Proof.
  pose proof (@the_author_updates_the_comment
                sample_CommentForm_update sample_db
                (post_as bob [("text", "edited")]) 1 comment_1
                (Comment.mk 1 bob 1 "edited")
                eq_refl eq_refl eq_refl eq_refl eq_refl)
    as [Hout [Hget _]].
  split; [exact Hout | exact Hget].
Defined.

Lemma add_comment_outcome (CommentForm_clean : QueryDict -> option string)
    (db : DB) (request : HttpRequest) (post_id : Z) (u : User.t) (post : Post.t) :
  user request = LoggedIn u ->
  Post_get_object db post_id = Ok post ->
  add_comment CommentForm_clean db request post_id
  = Ok (redirect (blog_post_detail post_id),
        match CommentForm CommentForm_clean (POST_or_None request) with
        | Some text => [InsertComment u (Post.pk post) text]
        | None => []
        end).
Proof.
  intros Hu Hpost. unfold add_comment, login_required. rewrite Hu. simpl.
  unfold Post_get_object in Hpost. rewrite Hpost. simpl.
  destruct (CommentForm CommentForm_clean (POST_or_None request)); reflexivity.
Qed.

(** X18: a valid comment adds exactly one comment to the post it is made on: the
    new comment comes last among the comments of that post, the number of
    comments the query builder reports for it goes up by one, and the
    comments of every other post and the posts themselves are as before. *)
Theorem a_comment_adds_one_to_its_post :
  forall (CommentForm_clean : QueryDict -> option string) (db : DB)
         (request : HttpRequest) (post_id : Z) (u : User.t) (post : Post.t)
         (text : string),
    user request = LoggedIn u ->
    Post_get_object db post_id = Ok post ->
    CommentForm CommentForm_clean (POST_or_None request) = Some text ->
    let db' :=
      commit db (writes_of (add_comment CommentForm_clean db request post_id)) in
    Post_comments db' post
    = (Post_comments db post
       ++ [Comment.mk (next_pk (map Comment.pk (comments db))) u (Post.pk post) text])%list
    /\ comments_on db' post = S (comments_on db post)
    /\ (forall q, Post.pk q <> Post.pk post ->
                  Post_comments db' q = Post_comments db q)
    /\ posts db' = posts db.
Proof.
  intros CommentForm_clean db request post_id u post text Hu Hpost Hform db'.
  assert (Hcomments :
            comments db'
            = (comments db
               ++ [Comment.mk (next_pk (map Comment.pk (comments db))) u
                              (Post.pk post) text])%list).
  { unfold db'.
    rewrite (@add_comment_outcome CommentForm_clean db request post_id u post Hu Hpost), Hform.
    reflexivity. }
  assert (Hposts : posts db' = posts db).
  { unfold db'.
    rewrite (@add_comment_outcome CommentForm_clean db request post_id u post Hu Hpost), Hform.
    reflexivity. }
  assert (Hown : Post_comments db' post
                 = (Post_comments db post
                    ++ [Comment.mk (next_pk (map Comment.pk (comments db))) u
                                   (Post.pk post) text])%list).
  { unfold Post_comments. rewrite Hcomments, filter_app. simpl.
    now rewrite Z.eqb_refl. }
  split; [exact Hown|]. split; [|split; [|exact Hposts]].
  - unfold comments_on. fold (Post_comments db' post). fold (Post_comments db post).
    rewrite Hown, length_app. simpl. lia.
  - intros q Hq. unfold Post_comments. rewrite Hcomments, filter_app. simpl.
    destruct (Z.eqb_spec (Post.pk post) (Post.pk q)); [congruence|].
    apply app_nil_r.
Qed.

Lemma a_comment_adds_one_to_its_post_witness :
  comments_on
    (commit sample_db
       (writes_of (add_comment sample_CommentForm_clean sample_db
                     (post_as bob [("text", "hello")]) 1)))
    post_public
  = S (comments_on sample_db post_public).
Proof.
  exact (proj1 (proj2 (@a_comment_adds_one_to_its_post
                         sample_CommentForm_clean sample_db
                         (post_as bob [("text", "hello")]) 1 bob post_public
                         "hello" eq_refl eq_refl eq_refl))).
Defined.

(** X19: [add_comment] fetches its post by key alone: a logged-in user who is
    not the author can comment on a post that is not public, which the
    detail view refuses to show to that same user. *)
Theorem a_hidden_post_takes_comments :
  forall (CommentForm_clean : QueryDict -> option string) (db : DB) (now : Z)
         (request : HttpRequest) (post_id : Z) (u : User.t) (post : Post.t)
         (text : string),
    user request = LoggedIn u ->
    Post_get_object db post_id = Ok post ->
    User.eqb u (Post.author post) = false ->
    is_publicb now post = false ->
    CommentForm CommentForm_clean (POST_or_None request) = Some text ->
    PostDetailView_get_object db now request post_id = Raise Http404
    /\ add_comment CommentForm_clean db request post_id
       = Ok (redirect (blog_post_detail post_id),
             [InsertComment u (Post.pk post) text]).
Proof.
  intros CommentForm_clean db now request post_id u post text Hu Hpost Hneq
         Hhidden Hform.
  split.
  - rewrite (PostDetailView_get_object_eq db now request post_id Hpost).
    rewrite Hu. simpl. now rewrite Hneq, Hhidden.
  - rewrite (@add_comment_outcome CommentForm_clean db request post_id u post Hu Hpost), Hform.
    reflexivity.
Qed.

Lemma a_hidden_post_takes_comments_witness :
  PostDetailView_get_object sample_db 10 (post_as bob [("text", "hello")]) 3
  = Raise Http404
  /\ add_comment sample_CommentForm_clean sample_db
       (post_as bob [("text", "hello")]) 3
     = Ok (redirect (blog_post_detail 3), [InsertComment bob 3 "hello"]).
Proof.
  exact (@a_hidden_post_takes_comments
           sample_CommentForm_clean sample_db 10
           (post_as bob [("text", "hello")]) 3 bob post_unpublished "hello"
           eq_refl eq_refl eq_refl eq_refl eq_refl).
Defined.

(** ** ProfileUpdateView *)

(** X20: [ProfileUpdateView] edits the current user and nobody else: whatever it
    saves is what the form made of [request.user], on a [POST], and the
    answer then redirects to the profile under the saved [username]; an
    anonymous visitor is sent to the login page and nothing is saved. *)
Theorem a_profile_update_saves_the_requester_only :
  forall (UserUpdateForm_update : QueryDict -> User.t -> option User.t)
         (request : HttpRequest),
    let outcome := ProfileUpdateView UserUpdateForm_update request in
    (user request = AnonymousUser ->
     outcome = Ok (PlainResponse (redirect login), []))
    /\ (forall saved,
          In saved (users_saved outcome) ->
          exists u,
            user request = LoggedIn u
            /\ method request = Method.POST
            /\ UserUpdateForm_update (POST request) u = Some saved
            /\ outcome
               = Ok (PlainResponse
                       (redirect (blog_profile (User.username saved))),
                     [saved])).
Proof.
  intros UserUpdateForm_update request outcome. unfold outcome. split.
  - intros Hu. unfold ProfileUpdateView, AccessMixin_handle_no_permission.
    rewrite Hu. reflexivity.
  - intros saved.
    unfold ProfileUpdateView, ProfileUpdateView_handler,
      ProfileUpdateView_get_object, ProfileUpdateView_get_success_url,
      AccessMixin_handle_no_permission.
    destruct (user request) as [|u]; simpl; [tauto|].
    destruct (method request); simpl; [tauto|].
    destruct (UserUpdateForm_update (POST request) u) as [u'|] eqn:Hform;
      simpl; [|tauto].
    intros [<- | []]. exists u. repeat split. exact Hform.
Qed.

Lemma a_profile_update_saves_the_requester_only_witness :
  ProfileUpdateView sample_UserUpdateForm_update
    (mkRequest Method.POST AnonymousUser [] [("username", "mallory")])
  = Ok (PlainResponse (redirect login), [])
  /\ exists u,
       user (post_as bob [("username", "robert")]) = LoggedIn u
       /\ method (post_as bob [("username", "robert")]) = Method.POST
       /\ sample_UserUpdateForm_update
            (POST (post_as bob [("username", "robert")])) u
          = Some (User.mk 2 "robert")
       /\ ProfileUpdateView sample_UserUpdateForm_update
            (post_as bob [("username", "robert")])
          = Ok (PlainResponse
                  (redirect (blog_profile (User.username (User.mk 2 "robert")))),
                [User.mk 2 "robert"]).
Proof.
  split.
  - exact (proj1 (@a_profile_update_saves_the_requester_only
                    sample_UserUpdateForm_update
                    (mkRequest Method.POST AnonymousUser []
                               [("username", "mallory")]))
                 eq_refl).
  - apply (proj2 (@a_profile_update_saves_the_requester_only
                    sample_UserUpdateForm_update
                    (post_as bob [("username", "robert")]))
                 (User.mk 2 "robert")).
    simpl. tauto.
Defined.

Lemma find_username_after_save (table : list User.t) (u' : User.t) :
  In (User.pk u') (map User.pk table) ->
  (forall v, In v table -> User.username v = User.username u' ->
             User.pk v = User.pk u') ->
  find (fun x => String.eqb (User.username x) (User.username u'))
       (map (fun y => if User.pk y =? User.pk u' then u' else y) table)
  = Some u'.
Proof.
  induction table as [|y table IH]; simpl; [tauto|].
  intros Hin Huniq.
  destruct (Z.eqb_spec (User.pk y) (User.pk u')) as [Hy|Hy].
  - now rewrite String.eqb_refl.
  - destruct (String.eqb_spec (User.username y) (User.username u')) as [Hn|Hn].
    + exfalso. apply Hy. apply Huniq; [now left | exact Hn].
    + apply IH.
      * destruct Hin as [Hin | Hin]; [contradiction | exact Hin].
      * intros v Hv. apply Huniq. now right.
Qed.

(** X21: after a user has changed the profile, the address the answer redirects
    to is the profile page of that user as saved: with a form that leaves
    the key alone and a new [username] that no other user has, the profile
    view finds the saved user under it.  The rows of the other users, and
    the posts, are as before. *)
Theorem a_profile_update_redirects_to_the_saved_profile :
  forall (UserUpdateForm_update : QueryDict -> User.t -> option User.t)
         (db : DB) (request : HttpRequest) (u u' : User.t),
    user request = LoggedIn u ->
    method request = Method.POST ->
    UserUpdateForm_update (POST request) u = Some u' ->
    User.pk u' = User.pk u ->
    In (User.pk u) (map User.pk (users db)) ->
    (forall v, In v (users db) -> User.username v = User.username u' ->
               User.pk v = User.pk u) ->
    let outcome := ProfileUpdateView UserUpdateForm_update request in
    let db' := save_users db (users_saved outcome) in
    outcome
    = Ok (PlainResponse (redirect (blog_profile (User.username u'))), [u'])
    /\ ProfileView_get_object db' (User.username u') = Ok u'
    /\ (forall v, In v (users db) -> User.pk v <> User.pk u -> In v (users db'))
    /\ posts db' = posts db.
Proof.
  intros UserUpdateForm_update db request u u' Hu Hm Hform Hpk Hin Huniq
         outcome db'.
  assert (Hout : outcome
                 = Ok (PlainResponse (redirect (blog_profile (User.username u'))),
                       [u'])).
  { unfold outcome, ProfileUpdateView, ProfileUpdateView_handler,
      ProfileUpdateView_get_object, ProfileUpdateView_get_success_url.
    rewrite Hu. simpl. rewrite Hm, Hform. reflexivity. }
  assert (Husers : users db'
                   = map (fun y => if User.pk y =? User.pk u' then u' else y)
                         (users db)).
  { unfold db'. rewrite Hout. simpl. unfold save_row.
    assert (Hex : existsb (fun y => User.pk y =? User.pk u') (users db) = true).
    { apply existsb_exists. rewrite <- Hpk in Hin. apply in_map_iff in Hin.
      destruct Hin as [y [Hy Hiny]]. exists y. split; [exact Hiny|].
      now apply Z.eqb_eq. }
    now rewrite Hex. }
  split; [exact Hout|]. split; [|split].
  - unfold ProfileView_get_object. rewrite Husers.
    rewrite find_username_after_save; [reflexivity | |].
    + now rewrite Hpk.
    + intros v Hv Hn. rewrite Hpk. now apply Huniq.
  - intros v Hv Hne. rewrite Husers. apply in_map_iff. exists v.
    split; [|exact Hv].
    destruct (Z.eqb_spec (User.pk v) (User.pk u')); [congruence | reflexivity].
  - unfold db'. reflexivity.
Qed.

Lemma a_profile_update_redirects_to_the_saved_profile_witness :
  ProfileUpdateView sample_UserUpdateForm_update
    (post_as bob [("username", "robert")])
  = Ok (PlainResponse (redirect (blog_profile "robert")), [User.mk 2 "robert"])
  /\ ProfileView_get_object
       (save_users sample_db [User.mk 2 "robert"]) "robert"
     = Ok (User.mk 2 "robert").
Proof.
  assert (Huniq : forall v, In v (users sample_db) ->
                            User.username v = User.username (User.mk 2 "robert") ->
                            User.pk v = User.pk bob).
  { simpl. intros v [<- | [<- | []]] Hn; [discriminate | reflexivity]. }
  assert (Hin : In (User.pk bob) (map User.pk (users sample_db)))
    by (simpl; tauto).
  pose proof (@a_profile_update_redirects_to_the_saved_profile
                sample_UserUpdateForm_update sample_db
                (post_as bob [("username", "robert")]) bob (User.mk 2 "robert")
                eq_refl eq_refl eq_refl eq_refl Hin Huniq)
    as [Hout [Hget _]].
  split; [exact Hout | exact Hget].
Defined.
